(** * psychopy.hardware.camera: the camera capture controller

    A shallow embedding of [psychopy/hardware/camera/__init__.py] and the
    properties of its recording state machine.

    The module drives three collaborators that live outside the file: the
    ffpyplayer [MediaPlayer] (frame source), the ffpyplayer [MediaWriter]
    (frame writer) and MoviePy (muxer).  Their answers are inputs of the
    model: every reading of the clock, every result of [get_frame], every
    metadata report and every random name is taken from a tape held in the
    [World]; a tape that runs dry ends the run with [Starved].  Timestamps,
    which the code keeps as Python floats, are rationals here. *)

From Stdlib Require Import Bool List String Ascii ZArith QArith Lia Lqa.
From Stdlib Require Import Sorting.Mergesort Sorting.Sorted Sorting.Permutation.
From Stdlib Require Import DecimalString.
From Stdlib.Strings Require Import Byte.
Import ListNotations.

Set Implicit Arguments.

(* ------------------------------------------------------------------ *)
(** ** Constants *)

Definition VIDEO_DEVICE_ROOT_LINUX : string := "/dev".
Definition WEBCAM_UNKNOWN_VALUE : string := "Unknown".
Definition WEBCAM_NULL_VALUE : string := "Null".

Definition WEBCAM_MODE_VIDEO : string := "video".
Definition WEBCAM_MODE_CV : string := "cv".
Definition WEBCAM_MODE_PHOTO : string := "photo".

(** Modelled from the spec: the status flags [NOT_STARTED], [RECORDING],
    [STOPPING] and [STOPPED] come from [psychopy.constants], which is not
    part of this module.  The spec lists these four states; the module only
    assigns the flags and compares them. *)
Inductive Status : Type := NOT_STARTED | RECORDING | STOPPING | STOPPED.

Definition Status_eqb (a b : Status) : bool :=
  match a, b with
  | NOT_STARTED, NOT_STARTED | RECORDING, RECORDING
  | STOPPING, STOPPING | STOPPED, STOPPED => true
  | _, _ => false
  end.

(* ------------------------------------------------------------------ *)
(** ** Exceptions *)

Inductive Exn : Type :=
| RuntimeError (msg : string)
| CameraNotReadyError (msg : string)
| CameraNotFoundError (msg : string)
| PlayerNotAvailableError (msg : string)
| OSError (msg : string)
| FileNotFoundError (path : string)
| ValueError (msg : string)
| TypeError (msg : string)
| AttributeError (msg : string)
| IndexError (msg : string).

(* ------------------------------------------------------------------ *)
(** ** Values exchanged with the collaborators *)

(** Modelled from the spec: the stream metadata ([MovieMetadata] of
    [psychopy.visual.movies.metadata], not part of this module) as the
    module reads it: [size], [frameRate] and [pixelFormat] by attribute,
    [src_vid_size] by subscript.  It is what [MediaPlayer.get_metadata()]
    reports about the stream. *)
Record StreamMetadata : Type := mkMetadata {
  size : Z * Z;
  frameRate : Q;
  pixelFormat : string;
  src_vid_size : Z * Z
}.

(** Modelled from the spec: [NULL_MOVIE_METADATA] is an object of
    [psychopy.visual.movies.metadata], not part of this module; the spec
    calls it the global sentinel for null metadata.  [_recentMetadata] is
    compared with it by identity; it starts as Python's [None] and is
    afterwards whatever the player returned. *)
Inductive MetadataRef : Type :=
| MetaNone
| NULL_MOVIE_METADATA (m : StreamMetadata)
| MetaOf (m : StreamMetadata).

(** A decoded picture handed out by the player. *)
Record Image : Type := mkImage {
  img_pix_fmt : string;
  img_planes : list (list byte)
}.

(** The result of [SWScale(w, h, ifmt, ofmt=...).scale(img)], kept symbolic. *)
Record ScaledImage : Type := mkScaled {
  sws_iw : Z;
  sws_ih : Z;
  sws_ifmt : string;
  sws_ofmt : string;
  sws_src : Image
}.

(** Modelled from the spec: [MovieFrame] of [psychopy.visual.movies.frame]
    is not part of this module; the fields are the keyword arguments
    [_enqueueFrame] builds it with (the spec: index, absolute timestamp,
    pixel buffer, frame size). *)
Record MovieFrame : Type := mkMovieFrame {
  frameIndex : Z;
  absTime : Q;
  frame_size : Z * Z;
  colorData : list byte;
  audioChannels : Z;
  audioSamples : option (list byte);
  movieLib : string;
  userData : option (list byte)
}.

(** Modelled from the spec: [NULL_MOVIE_FRAME_INFO], of the same absent
    module, is the sentinel for no frame.  [_lastFrame] is compared with it
    by identity. *)
Inductive FrameRef : Type :=
| NULL_MOVIE_FRAME_INFO
| FrameOf (f : MovieFrame).

Definition is_NULL_MOVIE_FRAME_INFO (r : FrameRef) : bool :=
  match r with NULL_MOVIE_FRAME_INFO => true | FrameOf _ => false end.

Definition is_NULL_MOVIE_METADATA (r : MetadataRef) : bool :=
  match r with NULL_MOVIE_METADATA _ => true | _ => false end.

(** The [MediaPlayer] object: the arguments it was built with and how often
    [close_player] was called on it. *)
Record MediaPlayer : Type := mkPlayer {
  mp_filename : string;
  mp_ff_opts : list (string * string);
  mp_lib_opts : list (string * string);
  mp_closed : nat
}.

Record WriterOptions : Type := mkWriterOptions {
  pix_fmt_in : string;
  width_in : Z;
  height_in : Z;
  frame_rate : Q
}.

(** The [MediaWriter] object: file, stream options, and the frames pushed
    so far as (picture, pts, stream), newest first. *)
Record MediaWriter : Type := mkWriter {
  mw_filename : string;
  mw_streams : list WriterOptions;
  mw_frames : list (ScaledImage * Q * Z)
}.

(** Modelled from the spec: the [Microphone] of
    [psychopy.sound.microphone] is not part of this module.  The camera
    knows it only through the calls made on it ([record()], and the stop the
    spec ties to the controller's [stop()]); the object is the log of those
    calls, newest first. *)
Inductive MicCall : Type := MicRecord | MicStop.

Record Microphone : Type := mkMic { mic_calls : list MicCall }.

(* ------------------------------------------------------------------ *)
(** ** The controller object *)

Record Camera : Type := mkCamera {
  _device : string;
  _mic : option Microphone;
  _outFile : option string;
  _mode : string;
  _cameraLib : string;
  _codecOpts : list (string * string);
  _libOpts : list (string * string);
  _writer : option MediaWriter;
  _tempVideoFileName : string;
  _tempAudioFileName : string;
  _tempRootDir : string;
  _player : option MediaPlayer;
  _status : Status;
  _frameIndex : Z;
  _isRecording : bool;
  _startPts : Q;
  _absPts : Q;
  _pts : Q;
  _recentMetadata : MetadataRef;
  _lastFrame : FrameRef
}.

Definition set_mic (v : option Microphone) (c : Camera) : Camera :=
  mkCamera (_device c) v (_outFile c) (_mode c) (_cameraLib c) (_codecOpts c)
    (_libOpts c) (_writer c) (_tempVideoFileName c) (_tempAudioFileName c)
    (_tempRootDir c) (_player c) (_status c) (_frameIndex c) (_isRecording c)
    (_startPts c) (_absPts c) (_pts c) (_recentMetadata c) (_lastFrame c).

Definition set_outFile (v : option string) (c : Camera) : Camera :=
  mkCamera (_device c) (_mic c) v (_mode c) (_cameraLib c) (_codecOpts c)
    (_libOpts c) (_writer c) (_tempVideoFileName c) (_tempAudioFileName c)
    (_tempRootDir c) (_player c) (_status c) (_frameIndex c) (_isRecording c)
    (_startPts c) (_absPts c) (_pts c) (_recentMetadata c) (_lastFrame c).

Definition set_writer (v : option MediaWriter) (c : Camera) : Camera :=
  mkCamera (_device c) (_mic c) (_outFile c) (_mode c) (_cameraLib c)
    (_codecOpts c) (_libOpts c) v (_tempVideoFileName c)
    (_tempAudioFileName c) (_tempRootDir c) (_player c) (_status c)
    (_frameIndex c) (_isRecording c) (_startPts c) (_absPts c) (_pts c)
    (_recentMetadata c) (_lastFrame c).

Definition set_tempVideoFileName (v : string) (c : Camera) : Camera :=
  mkCamera (_device c) (_mic c) (_outFile c) (_mode c) (_cameraLib c)
    (_codecOpts c) (_libOpts c) (_writer c) v (_tempAudioFileName c)
    (_tempRootDir c) (_player c) (_status c) (_frameIndex c) (_isRecording c)
    (_startPts c) (_absPts c) (_pts c) (_recentMetadata c) (_lastFrame c).

Definition set_tempAudioFileName (v : string) (c : Camera) : Camera :=
  mkCamera (_device c) (_mic c) (_outFile c) (_mode c) (_cameraLib c)
    (_codecOpts c) (_libOpts c) (_writer c) (_tempVideoFileName c) v
    (_tempRootDir c) (_player c) (_status c) (_frameIndex c) (_isRecording c)
    (_startPts c) (_absPts c) (_pts c) (_recentMetadata c) (_lastFrame c).

Definition set_tempRootDir (v : string) (c : Camera) : Camera :=
  mkCamera (_device c) (_mic c) (_outFile c) (_mode c) (_cameraLib c)
    (_codecOpts c) (_libOpts c) (_writer c) (_tempVideoFileName c)
    (_tempAudioFileName c) v (_player c) (_status c) (_frameIndex c)
    (_isRecording c) (_startPts c) (_absPts c) (_pts c) (_recentMetadata c)
    (_lastFrame c).

Definition set_player (v : option MediaPlayer) (c : Camera) : Camera :=
  mkCamera (_device c) (_mic c) (_outFile c) (_mode c) (_cameraLib c)
    (_codecOpts c) (_libOpts c) (_writer c) (_tempVideoFileName c)
    (_tempAudioFileName c) (_tempRootDir c) v (_status c) (_frameIndex c)
    (_isRecording c) (_startPts c) (_absPts c) (_pts c) (_recentMetadata c)
    (_lastFrame c).

Definition set_status (v : Status) (c : Camera) : Camera :=
  mkCamera (_device c) (_mic c) (_outFile c) (_mode c) (_cameraLib c)
    (_codecOpts c) (_libOpts c) (_writer c) (_tempVideoFileName c)
    (_tempAudioFileName c) (_tempRootDir c) (_player c) v (_frameIndex c)
    (_isRecording c) (_startPts c) (_absPts c) (_pts c) (_recentMetadata c)
    (_lastFrame c).

Definition set_startPts (v : Q) (c : Camera) : Camera :=
  mkCamera (_device c) (_mic c) (_outFile c) (_mode c) (_cameraLib c)
    (_codecOpts c) (_libOpts c) (_writer c) (_tempVideoFileName c)
    (_tempAudioFileName c) (_tempRootDir c) (_player c) (_status c)
    (_frameIndex c) (_isRecording c) v (_absPts c) (_pts c)
    (_recentMetadata c) (_lastFrame c).

Definition set_absPts (v : Q) (c : Camera) : Camera :=
  mkCamera (_device c) (_mic c) (_outFile c) (_mode c) (_cameraLib c)
    (_codecOpts c) (_libOpts c) (_writer c) (_tempVideoFileName c)
    (_tempAudioFileName c) (_tempRootDir c) (_player c) (_status c)
    (_frameIndex c) (_isRecording c) (_startPts c) v (_pts c)
    (_recentMetadata c) (_lastFrame c).

Definition set_pts (v : Q) (c : Camera) : Camera :=
  mkCamera (_device c) (_mic c) (_outFile c) (_mode c) (_cameraLib c)
    (_codecOpts c) (_libOpts c) (_writer c) (_tempVideoFileName c)
    (_tempAudioFileName c) (_tempRootDir c) (_player c) (_status c)
    (_frameIndex c) (_isRecording c) (_startPts c) (_absPts c) v
    (_recentMetadata c) (_lastFrame c).

Definition set_recentMetadata (v : MetadataRef) (c : Camera) : Camera :=
  mkCamera (_device c) (_mic c) (_outFile c) (_mode c) (_cameraLib c)
    (_codecOpts c) (_libOpts c) (_writer c) (_tempVideoFileName c)
    (_tempAudioFileName c) (_tempRootDir c) (_player c) (_status c)
    (_frameIndex c) (_isRecording c) (_startPts c) (_absPts c) (_pts c) v
    (_lastFrame c).

Definition set_lastFrame (v : FrameRef) (c : Camera) : Camera :=
  mkCamera (_device c) (_mic c) (_outFile c) (_mode c) (_cameraLib c)
    (_codecOpts c) (_libOpts c) (_writer c) (_tempVideoFileName c)
    (_tempAudioFileName c) (_tempRootDir c) (_player c) (_status c)
    (_frameIndex c) (_isRecording c) (_startPts c) (_absPts c) (_pts c)
    (_recentMetadata c) v.

(* ------------------------------------------------------------------ *)
(** ** The world around the controller *)

(** What the host answers and does not change during a run. *)
Record Host : Type := mkHost {
  platform_system : string;            (* platform.system() *)
  glob_video : list string;            (* glob.glob('video*', root_dir='/dev') *)
  dshow_videoDevs : list string;       (* keys of list_dshow_devices()[0], in order *)
  dshow_names : list (string * string);(* list_dshow_devices()[2] *)
  tempdir : string;                    (* tempfile.gettempdir() *)
  mux : string -> string -> string -> option Z
    (* MoviePy: size of the file written when the video clip at the first
       path, with the audio clip at the second, is written to the third;
       [None] when MoviePy fails *)
}.

Record World : Type := mkWorld {
  host : Host;
  time_tape : list Q;                              (* future getTime() readings *)
  frame_tape : list (option (Image * Q) * string); (* future get_frame() results *)
  metadata_tape : list StreamMetadata;             (* future get_metadata() results *)
  entropy_tape : list string;                      (* future random names *)
  files : list (string * Z);                       (* path and size of the files on disk *)
  finalized : list MediaWriter                     (* writers that were closed, newest first *)
}.

Definition set_time_tape (v : list Q) (w : World) : World :=
  mkWorld (host w) v (frame_tape w) (metadata_tape w) (entropy_tape w)
    (files w) (finalized w).

Definition set_frame_tape (v : list (option (Image * Q) * string)) (w : World)
  : World :=
  mkWorld (host w) (time_tape w) v (metadata_tape w) (entropy_tape w)
    (files w) (finalized w).

Definition set_metadata_tape (v : list StreamMetadata) (w : World) : World :=
  mkWorld (host w) (time_tape w) (frame_tape w) v (entropy_tape w) (files w)
    (finalized w).

Definition set_entropy_tape (v : list string) (w : World) : World :=
  mkWorld (host w) (time_tape w) (frame_tape w) (metadata_tape w) v (files w)
    (finalized w).

Definition set_files (v : list (string * Z)) (w : World) : World :=
  mkWorld (host w) (time_tape w) (frame_tape w) (metadata_tape w)
    (entropy_tape w) v (finalized w).

Definition set_finalized (v : list MediaWriter) (w : World) : World :=
  mkWorld (host w) (time_tape w) (frame_tape w) (metadata_tape w)
    (entropy_tape w) (files w) v.

(* ------------------------------------------------------------------ *)
(** ** A state and exception monad *)

(** A run ends with a value, with a raised exception (the state reached
    when it was raised is kept: Python does not roll back), or starved of
    input. *)
Inductive Res (S A : Type) : Type :=
| Ok (a : A) (s : S)
| Raise (e : Exn) (s : S)
| Starved.

Arguments Raise {S A} e s.
Arguments Starved {S A}.

Definition M (S A : Type) : Type := S -> Res S A.

Definition ret {S A} (a : A) : M S A := fun s => Ok a s.

Definition bind {S A B} (m : M S A) (k : A -> M S B) : M S B :=
  fun s =>
    match m s with
    | Ok a s' => k a s'
    | Raise e s' => Raise e s'
    | Starved => Starved
    end.

Definition raise {S A} (e : Exn) : M S A := fun s => Raise e s.
Definition starve {S A} : M S A := fun _ => Starved.
Definition get {S} : M S S := fun s => Ok s s.
Definition modify {S} (f : S -> S) : M S unit := fun s => Ok tt (f s).

Declare Scope monad_scope.
Delimit Scope monad_scope with monad.
Notation "x <- c1 ;; c2" := (bind c1 (fun x => c2))
  (at level 61, c1 at next level, right associativity) : monad_scope.
Notation "' pat <- c1 ;; c2" :=
  (bind c1 (fun x => match x with pat => c2 end))
  (at level 61, pat pattern, c1 at next level, right associativity)
  : monad_scope.
Notation "c1 ;; c2" := (bind c1 (fun _ => c2))
  (at level 61, right associativity) : monad_scope.
Local Open Scope monad_scope.

(** The state of a method call: the object and the world. *)
Definition St : Type := (Camera * World)%type.

Definition get_self : M St Camera := fun st => Ok (fst st) st.
Definition get_world : M St World := fun st => Ok (snd st) st.
Definition modify_self (f : Camera -> Camera) : M St unit :=
  fun st => Ok tt (f (fst st), snd st).
Definition modify_world (f : World -> World) : M St unit :=
  fun st => Ok tt (fst st, f (snd st)).

(** Run a computation on the world alone inside a method. *)
Definition lift_world {A} (m : M World A) : M St A :=
  fun st =>
    match m (snd st) with
    | Ok a w => Ok a (fst st, w)
    | Raise e w => Raise e (fst st, w)
    | Starved => Starved
    end.

(* ------------------------------------------------------------------ *)
(** ** Python helpers *)

(** [l[i]] for a Python list, negative indices counting from the end. *)
Definition list_getitem {A} (l : list A) (i : Z) : option A :=
  let n := Z.of_nat (List.length l) in
  if (0 <=? i)%Z then nth_error l (Z.to_nat i)
  else if (- n <=? i)%Z then nth_error l (Z.to_nat (n + i))
  else None.

(** [d.get(k, None)] on a dictionary kept as an association list. *)
Fixpoint dict_get {V} (d : list (string * V)) (k : string) : option V :=
  match d with
  | [] => None
  | (k', v) :: d' => if String.eqb k' k then Some v else dict_get d' k
  end.

Definition dict_set {V} (d : list (string * V)) (k : string) (v : V)
  : list (string * V) :=
  (k, v) :: filter (fun kv => negb (String.eqb (fst kv) k)) d.

(** [os.path.join(a, b)] for a relative [b] on a POSIX host. *)
Definition os_path_join (a b : string) : string := (a ++ "/" ++ b)%string.

(** ['{}'.format(n)] for an integer. *)
Definition str_of_int (n : Z) : string := NilEmpty.string_of_int (Z.to_int n).

(** [list.sort()] on strings: the order is lexicographic on characters. *)
Module StringOrder <: Orders.TotalLeBool.
Definition t := string.
Definition leb := String.leb.
Definition leb_total := String.leb_total.
End StringOrder.

Module StringSort := Sort StringOrder.

(* ------------------------------------------------------------------ *)
(** ** Calls on the collaborators *)

(** [getTime()] of [psychopy.core]: the next reading of the clock. *)
Definition getTime : M St Q :=
  fun st =>
    match time_tape (snd st) with
    | [] => Starved
    | t :: ts => Ok t (fst st, set_time_tape ts (snd st))
    end.

Definition uuid4_hex : M St string :=
  fun st =>
    match entropy_tape (snd st) with
    | [] => Starved
    | u :: us => Ok u (fst st, set_entropy_tape us (snd st))
    end.

(** [tempfile.mkdtemp(suffix, prefix, dir=None)]: a fresh directory under
    the host's temporary directory, named prefix + random part + suffix. *)
Definition mkdtemp (suffix prefix : string) : M St string :=
  fun st =>
    match entropy_tape (snd st) with
    | [] => Starved
    | r :: rs =>
        Ok (os_path_join (tempdir (host (snd st))) (prefix ++ r ++ suffix))
           (fst st, set_entropy_tape rs (snd st))
    end.

(** [self._player.get_metadata()] *)
Definition player_get_metadata : M St StreamMetadata :=
  fun st =>
    match metadata_tape (snd st) with
    | [] => Starved
    | m :: ms => Ok m (fst st, set_metadata_tape ms (snd st))
    end.

(** [self._player.get_frame()] *)
Definition player_get_frame : M St (option (Image * Q) * string) :=
  fun st =>
    match frame_tape (snd st) with
    | [] => Starved
    | r :: rs => Ok r (fst st, set_frame_tape rs (snd st))
    end.

(** [self._player.close_player()]: the object stays where it is. *)
Definition player_close_player : M St unit :=
  self <- get_self ;;
  match _player self with
  | None => raise (AttributeError "'NoneType' object has no attribute 'close_player'")
  | Some p =>
      modify_self (set_player
        (Some (mkPlayer (mp_filename p) (mp_ff_opts p) (mp_lib_opts p)
                        (S (mp_closed p)))))
  end.

(** [self._writer.close()]: the container is flushed and finished. *)
Definition writer_close : M St unit :=
  self <- get_self ;;
  match _writer self with
  | None => raise (AttributeError "'NoneType' object has no attribute 'close'")
  | Some wr => modify_world (fun w => set_finalized (wr :: finalized w) w)
  end.

(** [self._writer.write_frame(img=..., pts=..., stream=...)] *)
Definition writer_write_frame (img : ScaledImage) (pts : Q) (stream : Z)
  : M St unit :=
  self <- get_self ;;
  match _writer self with
  | None => raise (AttributeError "'NoneType' object has no attribute 'write_frame'")
  | Some wr =>
      modify_self (set_writer
        (Some (mkWriter (mw_filename wr) (mw_streams wr)
                        ((img, pts, stream) :: mw_frames wr))))
  end.

(** [self._mic.record()] *)
Definition mic_record : M St unit :=
  self <- get_self ;;
  match _mic self with
  | None => raise (AttributeError "'NoneType' object has no attribute 'record'")
  | Some m => modify_self (set_mic (Some (mkMic (MicRecord :: mic_calls m))))
  end.

(** [videoClip.write_videofile(out)] with the audio clip attached. *)
Definition write_videofile (videoPath audioPath out : string) : M St unit :=
  w <- get_world ;;
  match mux (host w) videoPath audioPath out with
  | None => raise (OSError "MoviePy error")
  | Some sz => modify_world (fun w => set_files (dict_set (files w) out sz) w)
  end.

(** [os.path.getsize(path)] *)
Definition os_path_getsize (path : string) : M St Z :=
  w <- get_world ;;
  match dict_get (files w) path with
  | None => raise (FileNotFoundError path)
  | Some sz => ret sz
  end.

(** [colorData.to_bytearray()[0]] *)
Definition to_bytearray_0 (img : Image) : M St (list byte) :=
  match img_planes img with
  | [] => raise (IndexError "list index out of range")
  | p :: _ => ret p
  end.

(** Attribute access and subscription on [self._recentMetadata]. *)
Definition metadata_getattr (r : MetadataRef) : M St StreamMetadata :=
  match r with
  | MetaNone => raise (AttributeError "'NoneType' object has no attribute")
  | NULL_MOVIE_METADATA m | MetaOf m => ret m
  end.

Definition metadata_getitem (r : MetadataRef) : M St StreamMetadata :=
  match r with
  | MetaNone => raise (TypeError "'NoneType' object is not subscriptable")
  | NULL_MOVIE_METADATA m | MetaOf m => ret m
  end.

(* ------------------------------------------------------------------ *)
(** ** getCameras *)

Definition getCameras : M World (list string) :=
  w <- get ;;
  let systemName := platform_system (host w) in
  let foundCameras : list string := [] in
  if String.eqb systemName "Darwin" then
    ret foundCameras
  else if String.eqb systemName "Linux" then
    let globResult := glob_video (host w) in
    let foundCameras := foundCameras ++ globResult in
    ret (StringSort.sort foundCameras)
  else if String.eqb systemName "Windows" then
    let videoDevs := dshow_videoDevs (host w) in
    let names := dshow_names (host w) in
    ret (fold_left
           (fun foundCameras devKey =>
              let nameHR := dict_get names devKey in
              let ident := match nameHR with None => devKey | Some n => n end in
              foundCameras ++ [ident])
           videoDevs foundCameras)
  else
    raise (OSError ("Cannot get cameras, unsupported platform '"
                      ++ systemName ++ "'.")%string).

(* ------------------------------------------------------------------ *)
(** ** Camera *)

(** The [device] argument of the constructor: an [int], a [str], or
    something else. *)
Inductive DeviceArg : Type :=
| DevInt (n : Z)
| DevStr (s : string)
| DevOther.

Definition Camera__init__ (device : DeviceArg) (mic : option Microphone)
    (mode cameraLib : string) (codecOpts libOpts : option (list (string * string)))
  : M World Camera :=
  dev <- match device with
         | DevInt n =>
             cams <- getCameras ;;
             match list_getitem cams n with
             | Some d => ret d
             | None =>
                 raise (CameraNotFoundError
                   ("Could not enumerate camera with index `"
                      ++ str_of_int n ++ "`.")%string)
             end
         | DevStr s => ret s
         | DevOther =>
             raise (TypeError
               "Incorrect type for `camera`, expected `int` or `str`.")
         end ;;
  if negb (String.eqb mode WEBCAM_MODE_VIDEO || String.eqb mode WEBCAM_MODE_CV
           || String.eqb mode WEBCAM_MODE_PHOTO) then
    raise (ValueError
      "Invalid value for parameter `mode`, expected one of `'video'` `'cv'` or `'photo'`.")
  else
    ret {| _device := dev;
           _mic := mic;
           _outFile := None;
           _mode := mode;
           _cameraLib := cameraLib;
           _codecOpts := match codecOpts with Some o => o | None => [] end;
           _libOpts := match libOpts with Some o => o | None => [] end;
           _writer := None;
           _tempVideoFileName := EmptyString;
           _tempAudioFileName := EmptyString;
           _tempRootDir := ".";
           _player := None;
           _status := NOT_STARTED;
           _frameIndex := -1;
           _isRecording := false;
           _startPts := -1.0;
           _absPts := -1.0;
           _pts := -1.0;
           _recentMetadata := MetaNone;
           _lastFrame := NULL_MOVIE_FRAME_INFO |}.

Definition isReady (self : Camera) : bool :=
  let hasPlayer := match _player self with Some _ => true | None => false end in
  let streamReady := negb (is_NULL_MOVIE_METADATA (_recentMetadata self)) in
  hasPlayer && streamReady.

Definition _assertCameraReady : M St unit :=
  self <- get_self ;;
  if negb (isReady self) then raise (CameraNotReadyError "Camera is not ready.")
  else ret tt.

Definition metadata (self : Camera) : MetadataRef := _recentMetadata self.
Definition getMetadata (self : Camera) : MetadataRef := _recentMetadata self.
Definition mode (self : Camera) : string := _mode self.
Definition status (self : Camera) : Status := _status self.
Definition outFile (self : Camera) : option string := _outFile self.
Definition streamTime (self : Camera) : Q := _absPts self.
Definition recordingTime (self : Camera) : Q := _pts self.
Definition lastClip (self : Camera) : option string := _outFile self.
Definition lastFrame (self : Camera) : FrameRef := _lastFrame self.

Definition _hasPlayer (self : Camera) : bool :=
  match _player self with Some _ => true | None => false end.

Definition _hasWriter (self : Camera) : bool :=
  match _writer self with Some _ => true | None => false end.

Definition _assertMediaPlayer : M St unit :=
  self <- get_self ;;
  match _player self with
  | Some _ => ret tt
  | None => raise (PlayerNotAvailableError "Media player not initialized.")
  end.

(** The [outFile] setter. *)
Definition outFile_setter (value : option string) : M St unit :=
  self <- get_self ;;
  match _writer self with
  | Some _ => raise (ValueError "Cannot change `outFile` while recording.")
  | None => modify_self (set_outFile value)
  end.

Definition _openWriter : M St unit :=
  self <- get_self ;;
  match _writer self with
  | Some _ => raise (RuntimeError "Stream writer instance has already been created.")
  | None =>
      _assertMediaPlayer ;;
      match _outFile self with
      | None => ret tt
      | Some _ =>
          randFileName <- uuid4_hex ;;
          root <- mkdtemp randFileName "psychopy-" ;;
          modify_self (set_tempRootDir root) ;;
          self <- get_self ;;
          modify_self (set_tempVideoFileName
            (os_path_join (_tempRootDir self)
               ("video-" ++ randFileName ++ ".mp4"))) ;;
          self <- get_self ;;
          modify_self (set_tempAudioFileName
            (os_path_join (_tempRootDir self)
               ("audio-" ++ randFileName ++ ".wav"))) ;;
          self <- get_self ;;
          md <- metadata_getattr (_recentMetadata self) ;;
          let '(frameWidth, frameHeight) := size md in
          md <- metadata_getattr (_recentMetadata self) ;;
          let frameRate := frameRate md in
          let writerOptions :=
            {| pix_fmt_in := "yuv420p";
               width_in := frameWidth;
               height_in := frameHeight;
               frame_rate := frameRate |} in
          modify_self (fun self =>
            set_writer (Some (mkWriter (_tempVideoFileName self)
                                       [writerOptions] [])) self) ;;
          modify_self (set_pts (-1.0))
      end
  end.

Definition _closeWriter : M St unit :=
  self <- get_self ;;
  match _writer self with
  | None => ret tt
  | Some _ =>
      writer_close ;;
      modify_self (set_writer None) ;;
      modify_self (set_startPts (-1.0)) ;;
      modify_self (set_pts (-1.0)) ;;
      modify_self (set_absPts (-1.0))
  end.

Definition _renderVideo : M St bool :=
  self <- get_self ;;
  match _outFile self with
  | None => ret false
  | Some out =>
      if negb (Status_eqb (_status self) STOPPED) then
        raise (RuntimeError "Cannot render video, `stop` has not been called yet.")
      else
        let videoClip := _tempVideoFileName self in
        let audioClip := _tempAudioFileName self in
        write_videofile videoClip audioClip out ;;
        ret true
  end.

Definition _writeFrame (colorData : Image) (timestamp : Q) : M St unit :=
  self <- get_self ;;
  if negb (_hasWriter self) then ret tt
  else if negb (Status_eqb (_status self) RECORDING) then ret tt
  else
    md <- metadata_getattr (_recentMetadata self) ;;
    let '(frameWidth, frameHeight) := size md in
    md <- metadata_getattr (_recentMetadata self) ;;
    let pixelFormat := pixelFormat md in
    let sws := mkScaled frameWidth frameHeight pixelFormat "yuv420p" in
    writer_write_frame (sws colorData) timestamp 0.

(** [a < b] on timestamps. *)
Definition Qlt_bool (a b : Q) : bool := negb (Qle_bool b a).

(** The polling loop of [_enqueueFrame]:

      while not timedOut:
          timedOut = (getTime() - tStart) < timeout
          frame, status = self._player.get_frame()
          if frame is not None:
              break

    entered with [timedOut = False].  The result is the value of
    [(frame, status, timedOut)] when the loop is left.  Each turn reads one
    [get_frame] result, so a turn count above the length of the frame tape
    is never used up before the tape is. *)
Fixpoint poll_loop (turns : nat) (tStart timeout : Q)
  : M St (option (Image * Q) * string * bool) :=
  match turns with
  | O => starve
  | S turns' =>
      now <- getTime ;;
      let timedOut := Qlt_bool (now - tStart) timeout in
      '(frame, status) <- player_get_frame ;;
      match frame with
      | Some _ => ret (frame, status, timedOut)
      | None =>
          if timedOut then ret (frame, status, timedOut)
          else poll_loop turns' tStart timeout
      end
  end.

Definition _enqueueFrame (timeout : Q) : M St bool :=
  _assertMediaPlayer ;;
  md <- player_get_metadata ;;
  modify_self (set_recentMetadata (MetaOf md)) ;;
  tStart <- getTime ;;
  w <- get_world ;;
  '(frame, status, timedOut) <-
     poll_loop (S (List.length (frame_tape w))) tStart timeout ;;
  if timedOut then ret false
  else
    match frame with
    | None => raise (TypeError "cannot unpack non-iterable NoneType object")
    | Some (colorData, absPts) =>
        modify_self (set_absPts absPts) ;;
        self <- get_self ;;
        (if Status_eqb (_status self) RECORDING then
           (if is_NULL_MOVIE_FRAME_INFO (_lastFrame self)
            then modify_self (set_startPts absPts)
            else ret tt) ;;
           modify_self (fun self => set_pts (_absPts self - _startPts self) self)
         else
           modify_self (set_startPts (-1.0)) ;;
           modify_self (set_pts (-1.0))) ;;
        videoBuffer <- to_bytearray_0 colorData ;;
        let videoFrameArray := videoBuffer in
        self <- get_self ;;
        md <- metadata_getitem (_recentMetadata self) ;;
        modify_self (set_lastFrame (FrameOf
          {| frameIndex := _frameIndex self;
             absTime := _absPts self;
             frame_size := src_vid_size md;
             colorData := videoFrameArray;
             audioChannels := 0;
             audioSamples := None;
             movieLib := "ffpyplayer";
             userData := None |})) ;;
        self <- get_self ;;
        _writeFrame colorData (recordingTime self) ;;
        (if String.eqb status "eof"
         then modify_self (set_status STOPPING)
         else ret tt) ;;
        ret true
    end.

Definition open : M St unit :=
  self <- get_self ;;
  if _hasPlayer self then
    raise (RuntimeError "Cannot open `MediaPlayer`, already opened.")
  else
    w <- get_world ;;
    let '(ff_opts, lib_opts, _camera) :=
      if String.eqb (platform_system (host w)) "Windows" then
        ([("f", "dshow")],
         [("framerate", "30"); ("video_size", "320x240");
          ("pixel_format", "yuyv422"); ("rtbufsize", "307200")],
         ("video=" ++ _device self))%string
      else ([], [], _device self) in
    modify_self (set_player (Some (mkPlayer _camera ff_opts lib_opts 0))) ;;
    _enqueueFrame 1.0 ;;
    _openWriter.

Definition record (streamOnly : bool) : M St unit :=
  _assertMediaPlayer ;;
  (if negb streamOnly then _openWriter else ret tt) ;;
  modify_self (set_lastFrame NULL_MOVIE_FRAME_INFO) ;;
  modify_self (set_status RECORDING) ;;
  self <- get_self ;;
  match _mic self with
  | Some _ => mic_record
  | None => ret tt
  end.

Definition snapshot : M St unit := ret tt.

Definition stop : M St unit :=
  _assertMediaPlayer ;;
  modify_self (set_status STOPPED) ;;
  player_close_player ;;
  _closeWriter.

Definition close : M St unit :=
  self <- get_self ;;
  if negb (_hasPlayer self) then
    raise (RuntimeError "Cannot close stream, not opened yet.")
  else
    player_close_player ;;
    modify_self (set_player None) ;;
    self <- get_self ;;
    match _writer self with
    | Some _ => writer_close
    | None => ret tt
    end.

Definition save (filename : string) : M St Z :=
  self <- get_self ;;
  if negb (Status_eqb (_status self) STOPPED) then
    raise (RuntimeError
      "Attempted to call `save()` a file before calling `stop()`.")
  else
    rendered <- _renderVideo ;;
    if negb rendered then
      raise (RuntimeError
        "Failed to write file `filename`, check if the output path is writeable.")
    else
      modify_self (set_outFile (Some filename)) ;;
      self <- get_self ;;
      match _outFile self with
      | Some path => os_path_getsize path
      | None => raise (TypeError "stat: path should be string, not NoneType")
      end.

Definition update : M St unit := ret tt.

Definition getVideoFrame (timeout : Q) : M St FrameRef :=
  _assertMediaPlayer ;;
  _enqueueFrame timeout ;;
  self <- get_self ;;
  ret (_lastFrame self).

(* ------------------------------------------------------------------ *)
(** ** Clients and sample data *)

Local Open Scope string_scope.
Local Open Scope list_scope.
Local Open Scope Q_scope.

(** What a caller can read off the controller after a pull. *)
Record Reading : Type := mkReading {
  rd_abs : Q;      (* streamTime *)
  rd_start : Q;    (* the latched recording start *)
  rd_rec : Q       (* recordingTime *)
}.

(** A caller that pulls one frame per given timeout for as long as the
    status is [RECORDING], and notes the timestamps after every pull that
    brought a frame. *)
Fixpoint pull_while_recording (timeouts : list Q) : M St (list Reading) :=
  match timeouts with
  | [] => ret []
  | timeout :: timeouts' =>
      self <- get_self ;;
      if negb (Status_eqb (status self) RECORDING) then ret []
      else
        got <- _enqueueFrame timeout ;;
        self <- get_self ;;
        rest <- pull_while_recording timeouts' ;;
        ret (if got
             then mkReading (streamTime self) (_startPts self)
                            (recordingTime self) :: rest
             else rest)
  end.

(** The timestamps of the frames still to come from the source. *)
Definition frame_times (tape : list (option (Image * Q) * string)) : list Q :=
  flat_map (fun r => match fst r with Some (_, ts) => [ts] | None => [] end)
           tape.

(** Platforms for which [getCameras] has code that looks for devices. *)
Definition has_enumeration_strategy (systemName : string) : bool :=
  String.eqb systemName "Linux" || String.eqb systemName "Windows".

Definition linux_host : Host :=
  mkHost "Linux" ["video1"; "video0"; "video10"] [] [] "/tmp"
         (fun _ _ _ => Some 4096%Z).

Definition darwin_host : Host :=
  mkHost "Darwin" [] [] [] "/tmp" (fun _ _ _ => Some 4096%Z).

Definition windows_host : Host :=
  mkHost "Windows" [] ["@device_pnp_1"; "@device_pnp_0"]
         [("@device_pnp_0", "USB Camera")] "C:/Temp" (fun _ _ _ => Some 4096%Z).

Definition vga : StreamMetadata :=
  mkMetadata (640, 480)%Z 30 "yuyv422" (640, 480)%Z.

Definition picture : Image := mkImage "yuyv422" [[x00; x01]].

Definition quiet_world (h : Host) : World := mkWorld h [] [] [] [] [] [].

(** A controller as [Camera('/dev/video0', mic)] builds it. *)
Definition new_camera (mic : option Microphone) : Camera :=
  {| _device := "/dev/video0"; _mic := mic; _outFile := None;
     _mode := "video"; _cameraLib := "ffpyplayer"; _codecOpts := [];
     _libOpts := []; _writer := None; _tempVideoFileName := EmptyString;
     _tempAudioFileName := EmptyString; _tempRootDir := "."; _player := None;
     _status := NOT_STARTED; _frameIndex := -1; _isRecording := false;
     _startPts := -1.0; _absPts := -1.0; _pts := -1.0;
     _recentMetadata := MetaNone; _lastFrame := NULL_MOVIE_FRAME_INFO |}.

(** The same controller with its player created, before the first pull. *)
Definition player_camera : Camera :=
  set_player (Some (mkPlayer "/dev/video0" [] [] 0)) (new_camera None).

(** The same controller after [open()] on a Linux host. *)
Definition opened_camera (mic : option Microphone) : Camera :=
  set_recentMetadata (MetaOf vga)
    (set_player (Some (mkPlayer "/dev/video0" [] [] 0)) (new_camera mic)).

(** A source that has nothing at the first poll, read with a clock that
    advances by 10 ms. *)
Definition world_no_frame : World :=
  mkWorld linux_host [0; 0.01] [(None, EmptyString)] [vga] [] [] [].

(** An opened controller that is not recording. *)
Definition idle_camera : Camera := opened_camera None.

(** The frame the controller builds from [picture] stamped [ts]. *)
Definition frame_at (ts : Q) : MovieFrame :=
  mkMovieFrame (-1) ts (640, 480)%Z [x00; x01] 0 None "ffpyplayer" None.

(** Nothing for three polls while the clock runs from 10 s to 13 s, then a
    frame. *)
Definition world_late_frame : World :=
  mkWorld linux_host [10; 10; 11; 12; 13]
    [(None, EmptyString); (None, EmptyString); (None, EmptyString); (Some (picture, 2.5), EmptyString)]
    [vga] [] [] [].

(** Nothing at all for three polls. *)
Definition world_dry : World :=
  mkWorld linux_host [10; 10; 11; 12; 13] [(None, EmptyString); (None, EmptyString); (None, EmptyString)]
    [vga] [] [] [].

(** A frame at the very first poll, then another. *)
Definition world_ready : World :=
  mkWorld linux_host [10; 10; 10.5]
    [(Some (picture, 2.5), EmptyString); (Some (picture, 2.75), EmptyString)] [vga] [] [] [].

(** Nothing at the first poll, a frame at the second, 20 ms later. *)
Definition world_second_poll : World :=
  mkWorld linux_host [10; 10; 10.02]
    [(None, EmptyString); (Some (picture, 2.5), EmptyString)] [vga] [] [] [].

(** The start a session's readings refer to: the one already latched, or
    --- before the first frame --- the timestamp of the first frame to come. *)
Definition latched (c : Camera) (log : list Reading) : Q :=
  if is_NULL_MOVIE_FRAME_INFO (_lastFrame c)
  then match log with [] => 0 | r :: _ => rd_abs r end
  else _startPts c.

(** A source delivering three frames 30 ms apart, each at the first poll. *)
Definition world_three_frames : World :=
  mkWorld linux_host [10; 10; 10.03; 10.03; 10.06; 10.06]
    [(Some (picture, 2.5), EmptyString); (Some (picture, 2.53), EmptyString);
     (Some (picture, 2.56), EmptyString)]
    [vga; vga; vga] [] [] [].

(** The state [record(True)] leaves with that source. *)
Definition recording_state : St :=
  (set_status RECORDING (opened_camera None), world_three_frames).

(** Three pulls with the default timeout in that state: the readings and
    the final state. *)
Definition session_result : list Reading * St :=
  Eval vm_compute in
    match pull_while_recording [0; 0; 0] recording_state with
    | Ok log st => (log, st)
    | _ => ([], recording_state)
    end.

(** The player after one more [close_player()]. *)
Definition close_once (p : MediaPlayer) : MediaPlayer :=
  mkPlayer (mp_filename p) (mp_ff_opts p) (mp_lib_opts p) (S (mp_closed p)).

(** A frame, flagged as the last of the stream. *)
Definition world_eof : World :=
  mkWorld linux_host [10; 10] [(Some (picture, 2.5), "eof")] [vga] [] [] [].

(** One frame at once, then nothing at the next poll. *)
Definition world_frame_then_nothing : World :=
  mkWorld linux_host [10; 10; 11; 11.01]
    [(Some (picture, 2.5), EmptyString); (None, EmptyString)] [vga; vga] [] [] [].

(** Random names for one recording, and nothing on disk. *)
Definition world_recording : World :=
  mkWorld linux_host [10; 10] [(Some (picture, 2.5), EmptyString)] [vga]
    ["1f0e"; "k3x9"] [] [].

(** The same, with an unrelated 7-byte file already at [b.mp4]. *)
Definition world_recording_stale : World :=
  mkWorld linux_host [10; 10] [(Some (picture, 2.5), EmptyString)] [vga]
    ["1f0e"; "k3x9"] [("b.mp4", 7%Z)] [].

(** A world with two random names to draw and nothing else. *)
Definition world_names : World :=
  mkWorld linux_host [] [] [] ["1f0e"; "k3x9"] [] [].

(** The temporary video file of a recording whose random identifier is
    [ident], in the directory [mkdtemp] made with random part [rnd]. *)
Definition temp_video_path (h : Host) (rnd ident : string) : string :=
  os_path_join (os_path_join (tempdir h) ("psychopy-" ++ rnd ++ ident))
               ("video-" ++ ident ++ ".mp4").

(** A source that never has a frame for the first pull. *)
Definition world_never_ready : World :=
  mkWorld linux_host [0; 0.5] [(None, EmptyString)] [vga] [] [] [].

(** A controller that is recording to a writer, microphone running. *)
Definition recording_camera : Camera :=
  set_status RECORDING
    (set_writer (Some (mkWriter "/tmp/psychopy-k3x91f0e/video-1f0e.mp4"
                         [mkWriterOptions "yuv420p" 640 480 30] []))
       (set_outFile (Some "a.mp4")
          (opened_camera (Some (mkMic [MicRecord]))))).

(* ------------------------------------------------------------------ *)
(** ** CameraInfo *)

(** A number handed to a descriptor: an [int], or a [float]. *)
Inductive PyNum : Type :=
| PyInt (n : Z)
| PyFloat (q : Q).

Definition isinstance_int (v : PyNum) : bool :=
  match v with PyInt _ => true | PyFloat _ => false end.

Definition num_value (v : PyNum) : Q :=
  match v with PyInt n => inject_Z n | PyFloat q => q end.

(** [a <= b] on Python numbers. *)
Definition num_le (a b : PyNum) : bool := Qle_bool (num_value a) (num_value b).

(** What a call on a descriptor ends with: a value, a failed [assert], or a
    failed tuple unpacking. *)
Inductive Checked (A : Type) : Type :=
| Passed (a : A)
| AssertionError (msg : string)
| UnpackError (msg : string).

Arguments AssertionError {A} msg.
Arguments UnpackError {A} msg.

Module CameraInfo.

Record t : Type := mk {
  _name : string;
  _frameSize : list PyNum;
  _frameRateRange : list PyNum;
  _pixelFormat : string;
  _codecFormat : string;
  _cameraLib : string;
  _cameraAPI : string
}.

Definition name (self : t) : string := _name self.
Definition frameSize (self : t) : list PyNum := _frameSize self.
Definition frameRateRange (self : t) : list PyNum := _frameRateRange self.
Definition pixelFormat (self : t) : string := _pixelFormat self.
Definition codecFormat (self : t) : string := _codecFormat self.

Definition name_setter (value : string) (self : t) : Checked t :=
  Passed (mk value (_frameSize self) (_frameRateRange self) (_pixelFormat self)
             (_codecFormat self) (_cameraLib self) (_cameraAPI self)).

Definition frameSize_setter (value : list PyNum) (self : t) : Checked t :=
  if negb (Nat.eqb (List.length value) 2) then
    AssertionError "Value for `frameSize` must have length 2."
  else if negb (forallb isinstance_int value) then
    AssertionError "Values for `frameSize` must be integers."
  else
    Passed (mk (_name self) value (_frameRateRange self) (_pixelFormat self)
               (_codecFormat self) (_cameraLib self) (_cameraAPI self)).

Definition frameRateRange_setter (value : list PyNum) (self : t) : Checked t :=
  if negb (Nat.eqb (List.length value) 2) then
    AssertionError "Value for `frameRateRange` must have length 2."
  else if negb (forallb isinstance_int value) then
    AssertionError "Values for `frameRateRange` must be integers."
  else if negb (num_le (nth 0 value (PyInt 0)) (nth 1 value (PyInt 0))) then
    AssertionError "Value for `frameRateRange` must be `min` <= `max`."
  else
    Passed (mk (_name self) (_frameSize self) value (_pixelFormat self)
               (_codecFormat self) (_cameraLib self) (_cameraAPI self)).

Definition pixelFormat_setter (value : string) (self : t) : Checked t :=
  Passed (mk (_name self) (_frameSize self) (_frameRateRange self) value
             (_codecFormat self) (_cameraLib self) (_cameraAPI self)).

Definition codecFormat_setter (value : string) (self : t) : Checked t :=
  Passed (mk (_name self) (_frameSize self) (_frameRateRange self)
             (_pixelFormat self) value (_cameraLib self) (_cameraAPI self)).

Definition and_then {A B} (r : Checked A) (k : A -> Checked B) : Checked B :=
  match r with
  | Passed a => k a
  | AssertionError msg => AssertionError msg
  | UnpackError msg => UnpackError msg
  end.

(** The constructor; the slots are filled in the order of the source, the
    validated ones through their setters. *)
Definition __init__ (name : string) (frameSize frameRateRange : list PyNum)
    (pixelFormat codecFormat cameraLib cameraAPI : string) : Checked t :=
  let self := mk EmptyString [] [] EmptyString EmptyString EmptyString
                 EmptyString in
  and_then (name_setter name self) (fun self =>
  and_then (frameSize_setter frameSize self) (fun self =>
  and_then (frameRateRange_setter frameRateRange self) (fun self =>
  and_then (pixelFormat_setter pixelFormat self) (fun self =>
  and_then (codecFormat_setter codecFormat self) (fun self =>
  Passed (mk (_name self) (_frameSize self) (_frameRateRange self)
             (_pixelFormat self) (_codecFormat self) cameraLib cameraAPI)))))).

(** The constructor with every argument at its default. *)
Definition default : Checked t :=
  __init__ WEBCAM_NULL_VALUE [PyInt (-1); PyInt (-1)] [PyInt (-1); PyInt (-1)]
           WEBCAM_UNKNOWN_VALUE WEBCAM_UNKNOWN_VALUE WEBCAM_NULL_VALUE
           WEBCAM_NULL_VALUE.

Definition supportedFrameRate (self : t) (frameRate : PyNum) : Checked bool :=
  match _frameRateRange self with
  | [frameRateMin; frameRateMax] =>
      Passed (num_le frameRateMin frameRate && num_le frameRate frameRateMax)
  | _ => UnpackError "not enough or too many values to unpack (expected 2)"
  end.

(** The state the setters keep a descriptor in: a frame size of two
    integers and a frame-rate range of two integers in order. *)
Definition valid (self : t) : Prop :=
  (exists w h, _frameSize self = [PyInt w; PyInt h]) /\
  (exists lo hi, _frameRateRange self = [PyInt lo; PyInt hi] /\ (lo <= hi)%Z).

End CameraInfo.

(* ------------------------------------------------------------------ *)
(** ** More of Camera *)

Definition set_device (v : string) (c : Camera) : Camera :=
  mkCamera v (_mic c) (_outFile c) (_mode c) (_cameraLib c) (_codecOpts c)
    (_libOpts c) (_writer c) (_tempVideoFileName c) (_tempAudioFileName c)
    (_tempRootDir c) (_player c) (_status c) (_frameIndex c) (_isRecording c)
    (_startPts c) (_absPts c) (_pts c) (_recentMetadata c) (_lastFrame c).

(** The [device] and [mic] setters. *)
Definition device_setter (value : string) : M St unit :=
  modify_self (set_device value).

Definition mic_setter (value : option Microphone) : M St unit :=
  modify_self (set_mic value).

(** [Camera.getWebcams()] *)
Definition getWebcams : M World (list string) := getCameras.

Definition authorize : M St unit := ret tt.
Definition _upload : M St unit := ret tt.
Definition _download : M St unit := ret tt.

(** [try: m  except AttributeError: pass] *)
Definition try_except_AttributeError (m : M St unit) : M St unit :=
  fun st =>
    match m st with
    | Raise (AttributeError _) st' => Ok tt st'
    | r => r
    end.

(** [__del__] on a constructed controller, which has both attributes. *)
Definition Camera__del__ : M St unit :=
  self <- get_self ;;
  match _player self with
  | Some _ => try_except_AttributeError player_close_player
  | None => ret tt
  end ;;
  self <- get_self ;;
  match _writer self with
  | Some _ => try_except_AttributeError writer_close
  | None => ret tt
  end.

(** The calls a user makes on a controller. *)
Inductive Call : Type :=
| CallAuthorize
| CallOpen
| CallRecord (streamOnly : bool)
| CallSnapshot
| CallStop
| CallClose
| CallSave (filename : string)
| CallUpdate
| CallGetVideoFrame (timeout : Q)
| CallSetOutFile (value : option string)
| CallSetDevice (value : string)
| CallSetMic (value : option Microphone).

Definition void {A} (m : M St A) : M St unit := _ <- m ;; ret tt.

Definition perform (call : Call) : M St unit :=
  match call with
  | CallAuthorize => authorize
  | CallOpen => open
  | CallRecord streamOnly => record streamOnly
  | CallSnapshot => snapshot
  | CallStop => stop
  | CallClose => close
  | CallSave filename => void (save filename)
  | CallUpdate => update
  | CallGetVideoFrame timeout => void (getVideoFrame timeout)
  | CallSetOutFile value => outFile_setter value
  | CallSetDevice value => device_setter value
  | CallSetMic value => mic_setter value
  end.

(** The state a call leaves behind, whether it returned or raised. *)
Definition state_after {A} (r : Res St A) : option St :=
  match r with
  | Ok _ st => Some st
  | Raise _ st => Some st
  | Starved => None
  end.

(** A user making the calls one after the other, going on after a call
    that raised. *)
Fixpoint perform_all (calls : list Call) (st : St) : option St :=
  match calls with
  | [] => Some st
  | call :: calls' =>
      match state_after (perform call st) with
      | Some st' => perform_all calls' st'
      | None => None
      end
  end.

(** What the state machine keeps true of the controller: the metadata is
    never the null object, and a writer is held only together with an
    output path and for the temporary video file on record. *)
Definition well_formed (c : Camera) : Prop :=
  is_NULL_MOVIE_METADATA (_recentMetadata c) = false /\
  forall wr, _writer c = Some wr ->
    _outFile c <> None /\ mw_filename wr = _tempVideoFileName c.

(** The timestamps of the frames a writer was given, oldest first. *)
Definition written_pts (wr : MediaWriter) : list Q :=
  rev (map (fun f => snd (fst f)) (mw_frames wr)).

(** A controller recording to a writer, nothing written yet. *)
Definition writing_camera : Camera :=
  set_lastFrame NULL_MOVIE_FRAME_INFO
    (set_status RECORDING
       (set_writer (Some (mkWriter "/tmp/psychopy-k3x91f0e/video-1f0e.mp4"
                            [mkWriterOptions "yuv420p" 640 480 30] []))
          (set_tempVideoFileName "/tmp/psychopy-k3x91f0e/video-1f0e.mp4"
             (set_outFile (Some "a.mp4") (opened_camera None))))).


(** A session of three pulls on that controller: the readings and the
    state it ends in. *)
Definition writing_session : list Reading * St :=
  Eval vm_compute in
    match pull_while_recording [0; 0; 0] (writing_camera, world_three_frames) with
    | Ok log st => (log, st)
    | _ => ([], (writing_camera, world_three_frames))
    end.

(* ------------------------------------------------------------------ *)
(** * Properties *)

Ltac munfold_in H :=
  unfold _openWriter, _closeWriter, _renderVideo, _writeFrame,
    _assertMediaPlayer, _assertCameraReady, writer_write_frame, writer_close,
    player_close_player, player_get_metadata, player_get_frame, mic_record,
    write_videofile, os_path_getsize, to_bytearray_0, metadata_getitem,
    metadata_getattr, uuid4_hex, mkdtemp, getTime, modify_self, modify_world,
    get_self, get_world, ret, raise, starve, bind in H.

Ltac munfold :=
  unfold _openWriter, _closeWriter, _renderVideo, _writeFrame,
    _assertMediaPlayer, _assertCameraReady, writer_write_frame, writer_close,
    player_close_player, player_get_metadata, player_get_frame, mic_record,
    write_videofile, os_path_getsize, to_bytearray_0, metadata_getitem,
    metadata_getattr, uuid4_hex, mkdtemp, getTime, modify_self, modify_world,
    get_self, get_world, ret, raise, starve, bind.

(** Split on the innermost scrutinee of a [match] in [H]. *)
Ltac break_match H :=
  match type of H with
  | context [match ?x with _ => _ end] =>
      lazymatch x with
      | context [match _ with _ => _ end] => fail
      | _ => destruct x eqn:?
      end
  end.

Ltac break_all H := repeat (break_match H; cbn in *; try discriminate).

Lemma Qlt_bool_iff (a b : Q) : Qlt_bool a b = true <-> a < b.
Proof.
  unfold Qlt_bool. rewrite negb_true_iff, <- not_true_iff_false, Qle_bool_iff.
  split; [apply Qnot_le_lt | apply Qlt_not_le].
Qed.

Lemma Qlt_bool_false_iff (a b : Q) : Qlt_bool a b = false <-> b <= a.
Proof.
  unfold Qlt_bool. rewrite negb_false_iff. apply Qle_bool_iff.
Qed.

(** *** The polling loop *)

(** The loop touches nothing but the clock and the source, hands back the
    last result it read, and leaves un-timed-out only with a frame. *)
Lemma poll_loop_inv turns tStart timeout c w fr s timedOut c' w' :
  poll_loop turns tStart timeout (c, w) = Ok (fr, s, timedOut) (c', w') ->
  c' = c /\ host w' = host w /\ metadata_tape w' = metadata_tape w /\
  entropy_tape w' = entropy_tape w /\ files w' = files w /\
  finalized w' = finalized w /\
  (exists pre, frame_tape w = pre ++ (fr, s) :: frame_tape w' /\
               Forall (fun r => fst r = None) pre) /\
  (timedOut = false -> fr <> None).
Proof.
  revert w. induction turns as [|n IH]; intros w H; [discriminate|].
  destruct w as [h tt ft mt et fl fz].
  cbn in H. munfold_in H. cbn in H.
  destruct tt as [|t tt]; [discriminate|]. cbn in H.
  destruct ft as [|[fr0 s0] ft]; [discriminate|]. cbn in H.
  destruct fr0 as [f|].
  - inversion H; subst; cbn. repeat split; try discriminate.
    exists []. split; [reflexivity | constructor].
  - destruct (Qlt_bool (t - tStart) timeout) eqn:Eb.
    + inversion H; subst; cbn. repeat split; try discriminate.
      exists []. split; [reflexivity | constructor].
    + apply IH in H. cbn in H.
      destruct H as (Hc & Hh & Hm & He & Hf & Hz & (pre & Hpre & Hall) & Hto).
      repeat split; auto.
      exists ((None, s0) :: pre). cbn. split; [now rewrite Hpre|].
      constructor; auto.
Qed.

Lemma poll_loop_no_raise turns tStart timeout st e st' :
  poll_loop turns tStart timeout st <> Raise e st'.
Proof.
  revert st. induction turns as [|n IH]; intros [c w] H; [discriminate|].
  cbn in H. munfold_in H. cbn in H.
  destruct (time_tape w) as [|t ts]; [discriminate|]. cbn in H.
  destruct (frame_tape w) as [|[fr s] fs]; [discriminate|]. cbn in H.
  destruct fr as [f|]; [discriminate|].
  destruct (Qlt_bool (t - tStart) timeout); [discriminate|].
  eapply IH; eauto.
Qed.

(** With a positive timeout the first clock reading is below it, the flag
    [timedOut] is set at once, and the loop is left after a single poll,
    whatever that poll returned. *)
Lemma poll_loop_positive_timeout turns tStart timeout c h now tt r ft mt et fl fz :
  now - tStart < timeout ->
  poll_loop (S turns) tStart timeout (c, mkWorld h (now :: tt) (r :: ft) mt et fl fz)
  = Ok (fst r, snd r, true) (c, mkWorld h tt ft mt et fl fz).
Proof.
  intros Hlt. apply Qlt_bool_iff in Hlt.
  cbn. munfold. cbn. destruct r as [[f|] s]; cbn; rewrite Hlt; reflexivity.
Qed.

(** With a timeout that is not positive the flag is never set: the loop
    goes on for as long as the source has nothing, however late it gets. *)
Lemma poll_loop_nonpositive_timeout k :
  forall turns tStart timeout c h tt f s ft mt et fl fz late,
  timeout <= 0 ->
  Forall (fun now => tStart <= now) late -> List.length late = S k ->
  (k < turns)%nat ->
  poll_loop turns tStart timeout
    (c, mkWorld h (late ++ tt) (repeat (None, EmptyString) k ++ (Some f, s) :: ft)
                mt et fl fz)
  = Ok (Some f, s, false) (c, mkWorld h tt ft mt et fl fz).
Proof.
  induction k as [|k IH]; intros turns tStart timeout c h tt f s ft mt et fl fz
    late Hto Hlate Hlen Hturns;
    (destruct turns as [|turns]; [lia|]);
    (destruct late as [|now late]; [discriminate|]);
    inversion Hlate as [|? ? Hnow Hlate']; subst;
    assert (Hb : Qlt_bool (now - tStart) timeout = false)
      by (apply Qlt_bool_false_iff; lra).
  - destruct late; [|discriminate].
    cbn. munfold. cbn. rewrite Hb. reflexivity.
  - cbn. munfold. cbn. rewrite Hb.
    apply (IH turns tStart timeout c h tt f s ft mt et fl fz late); auto.
    lia.
Qed.

(** ... and it has not returned when the source has answered [k] times with
    nothing, for any [k]. *)
Lemma poll_loop_nonpositive_timeout_dry k :
  forall turns tStart timeout c h tt mt et fl fz,
  timeout <= 0 ->
  Forall (fun now => tStart <= now) tt ->
  poll_loop turns tStart timeout
    (c, mkWorld h tt (repeat (None, EmptyString) k) mt et fl fz) = Starved.
Proof.
  induction k as [|k IH]; intros turns tStart timeout c h tt mt et fl fz Hto Htt;
    (destruct turns as [|turns]; [reflexivity|]);
    (destruct tt as [|now tt]; [reflexivity|]);
    cbn; munfold; cbn; [reflexivity|].
  inversion Htt; subst.
  assert (Hb : Qlt_bool (now - tStart) timeout = false)
    by (apply Qlt_bool_false_iff; lra).
  rewrite Hb. apply IH; auto.
Qed.

(** A frame at a poll ends the loop at that poll. *)
Lemma poll_loop_frame_at_once turns tStart timeout c h now clk f s ft mt et fl fz :
  poll_loop (S turns) tStart timeout
    (c, mkWorld h (now :: clk) ((Some f, s) :: ft) mt et fl fz)
  = Ok (Some f, s, Qlt_bool (now - tStart) timeout)
       (c, mkWorld h clk ft mt et fl fz).
Proof. reflexivity. Qed.

Local Arguments poll_loop : simpl never.

(** *** One frame pull *)

(** What a pull that returned has done, by the way the loop was left. *)
Lemma enqueueFrame_inv timeout c w got c' w' :
  _enqueueFrame timeout (c, w) = Ok got (c', w') ->
  exists md mds fr s,
    _player c <> None /\
    metadata_tape w = md :: mds /\ metadata_tape w' = mds /\
    host w' = host w /\ entropy_tape w' = entropy_tape w /\
    files w' = files w /\ finalized w' = finalized w /\
    (exists pre, frame_tape w = pre ++ (fr, s) :: frame_tape w' /\
                 Forall (fun r => fst r = None) pre) /\
    _recentMetadata c' = MetaOf md /\
    _frameIndex c' = _frameIndex c /\ _player c' = _player c /\
    _mic c' = _mic c /\ _outFile c' = _outFile c /\
    ((got = false /\ c' = set_recentMetadata (MetaOf md) c) \/
     (got = true /\ exists img ts plane,
        fr = Some (img, ts) /\
        _absPts c' = ts /\
        _startPts c' =
          (if Status_eqb (_status c) RECORDING
           then if is_NULL_MOVIE_FRAME_INFO (_lastFrame c) then ts
                else _startPts c
           else -1.0) /\
        _pts c' =
          (if Status_eqb (_status c) RECORDING then ts - _startPts c'
           else -1.0) /\
        _lastFrame c' =
          FrameOf (mkMovieFrame (_frameIndex c) ts (src_vid_size md) plane 0
                                None "ffpyplayer" None) /\
        _status c' = (if String.eqb s "eof" then STOPPING else _status c))).
Proof.
  intros H. unfold _enqueueFrame in H.
  unfold _assertMediaPlayer, player_get_metadata, getTime, get_world,
    get_self, modify_self, ret, raise, bind at 1 2 3 4 5 6 7 in H.
  cbn in H.
  destruct (_player c) eqn:Ep; [|discriminate]. cbn in H.
  destruct (metadata_tape w) as [|md mds] eqn:Em; [discriminate|]. cbn in H.
  destruct (time_tape w) as [|t ts] eqn:Et; [discriminate|]. cbn in H.
  match type of H with
  | context [poll_loop ?n ?a ?b ?s] =>
      destruct (poll_loop n a b s) as [[[fr s0] to] [c1 w1]| |] eqn:Ep1
  end; [|discriminate|discriminate].
  apply poll_loop_inv in Ep1. cbn in Ep1.
  destruct Ep1 as (-> & Hh & Hm & He & Hf & Hz & Hpre & Hto).
  exists md, mds, fr, s0.
  destruct to.
  - inversion H; subst. cbn.
    repeat split; auto; congruence.
  - destruct fr as [[img ts0]|]; [|discriminate].
    destruct c. munfold_in H. cbn in *.
    break_all H; inversion H; subst; cbn;
      (repeat split; auto; try congruence);
      try (right; split; auto; eexists _, _, _; repeat split; reflexivity).
Qed.

(** Without a player the pull raises before it touches anything. *)
Lemma enqueueFrame_no_player timeout c w :
  _player c = None ->
  _enqueueFrame timeout (c, w)
  = Raise (PlayerNotAvailableError "Media player not initialized.") (c, w).
Proof. intros Hp. unfold _enqueueFrame. munfold. cbn. now rewrite Hp. Qed.

(** *** Pulls that end without a frame *)

(** C10.  A pull that returns [False] (the timed-out exit of
    [_enqueueFrame]) leaves [lastFrame], [streamTime], [recordingTime], the
    recording start and [status] as they were; the stream metadata is
    nevertheless replaced by what the source reported at the start of the
    pull, and [getVideoFrame] hands back the frame held before the call. *)
Theorem enqueueFrame_timeout_frame_effect timeout c w c' w' :
  _enqueueFrame timeout (c, w) = Ok false (c', w') ->
  lastFrame c' = lastFrame c /\
  streamTime c' = streamTime c /\
  recordingTime c' = recordingTime c /\
  _startPts c' = _startPts c /\
  status c' = status c /\
  (exists md, hd_error (metadata_tape w) = Some md /\ metadata c' = MetaOf md) /\
  getVideoFrame timeout (c, w) = Ok (lastFrame c) (c', w').
Proof.
  intros H. pose proof (enqueueFrame_inv _ _ _ H) as Hinv.
  destruct Hinv as (md & mds & fr & s & Hp & Hm & _ & _ & _ & _ & _ & _ & _ &
                    _ & _ & _ & _ & [[_ Hc] | [Hgot _]]); [|discriminate].
  subst c'. cbn. repeat split.
  - exists md. rewrite Hm. split; reflexivity.
  - unfold getVideoFrame, bind. unfold _assertMediaPlayer at 1.
    unfold bind, get_self, ret. cbn.
    destruct (_player c); [|congruence]. rewrite H. reflexivity.
Qed.

Lemma enqueueFrame_timeout_frame_effect_witness :
  lastFrame (opened_camera None) = lastFrame player_camera /\
  streamTime (opened_camera None) = streamTime player_camera /\
  recordingTime (opened_camera None) = recordingTime player_camera /\
  _startPts (opened_camera None) = _startPts player_camera /\
  status (opened_camera None) = status player_camera /\
  (exists md, hd_error (metadata_tape world_no_frame) = Some md /\
              metadata (opened_camera None) = MetaOf md) /\
  getVideoFrame 1 (player_camera, world_no_frame)
  = Ok (lastFrame player_camera) (opened_camera None, quiet_world linux_host).
Proof.
  exact (@enqueueFrame_timeout_frame_effect 1 player_camera world_no_frame
           (opened_camera None) (quiet_world linux_host) eq_refl).
Defined.

(** *** The timeout of a pull *)

(** C1, as the code runs.  The comparison that sets [timedOut] is the
    wrong way round.  With [timeout = 0] and no frame at hand the call does
    not come back at once: it polls on for three seconds and returns the
    frame that arrives then, and while nothing arrives it does not return.
    With [timeout = 1] the call gives up after one poll: a frame that was
    there at that poll is dropped and the stale [lastFrame] returned, and a
    frame due 20 ms later is not waited for. *)
Theorem getVideoFrame_timeout_inverted :
  getVideoFrame 0 (idle_camera, world_late_frame)
    = Ok (FrameOf (frame_at 2.5))
         (set_lastFrame (FrameOf (frame_at 2.5))
            (set_pts (-1.0) (set_startPts (-1.0) (set_absPts 2.5 idle_camera))),
          quiet_world linux_host) /\
  getVideoFrame 0 (idle_camera, world_dry) = Starved /\
  getVideoFrame 1 (idle_camera, world_ready)
    = Ok NULL_MOVIE_FRAME_INFO
         (idle_camera,
          mkWorld linux_host [10.5] [(Some (picture, 2.75), EmptyString)] [] [] [] []) /\
  getVideoFrame 1 (idle_camera, world_second_poll)
    = Ok NULL_MOVIE_FRAME_INFO
         (idle_camera,
          mkWorld linux_host [10.02] [(Some (picture, 2.5), EmptyString)] [] [] [] []).
Proof. repeat split; vm_compute; reflexivity. Qed.

(** Supporting facts for C1: the two exits of the loop seen from
    [getVideoFrame], for any opened controller and any source. *)
Lemma getVideoFrame_positive_timeout timeout c p h t0 t1 clk r ft md mt et fl fz :
  _player c = Some p ->
  t1 - t0 < timeout ->
  getVideoFrame timeout
    (c, mkWorld h (t0 :: t1 :: clk) (r :: ft) (md :: mt) et fl fz)
  = Ok (_lastFrame c)
       (set_recentMetadata (MetaOf md) c, mkWorld h clk ft mt et fl fz).
Proof.
  intros Hp Hlt.
  unfold getVideoFrame, _enqueueFrame, _assertMediaPlayer, player_get_metadata,
    getTime, get_world, get_self, modify_self, ret, raise, bind.
  cbn. repeat (rewrite Hp; cbn).
  unfold set_time_tape, set_metadata_tape. cbn.
  rewrite poll_loop_positive_timeout by exact Hlt. reflexivity.
Qed.

Lemma getVideoFrame_nonpositive_timeout_dry timeout c k h clk mt et fl fz :
  timeout <= 0 ->
  StronglySorted Qle clk ->
  forall f st',
    getVideoFrame timeout (c, mkWorld h clk (repeat (None, EmptyString) k) mt et fl fz)
    <> Ok f st'.
Proof.
  intros Hto Hsorted f st' H.
  unfold getVideoFrame, _enqueueFrame in H. munfold_in H. cbn in H.
  destruct (_player c) eqn:Ep; cbn in H; [|discriminate H].
  repeat (rewrite Ep in H; cbn in H).
  destruct mt as [|md mt]; cbn in H; [discriminate H|].
  destruct clk as [|t0 clk]; cbn in H; [discriminate H|].
  inversion Hsorted; subst.
  unfold set_time_tape, set_metadata_tape in H. cbn in H.
  rewrite poll_loop_nonpositive_timeout_dry in H by assumption.
  discriminate H.
Qed.

(** *** Timestamps of a recording session *)

Lemma record_inv streamOnly c w c' w' :
  record streamOnly (c, w) = Ok tt (c', w') ->
  _status c' = RECORDING /\ _lastFrame c' = NULL_MOVIE_FRAME_INFO /\
  _player c' = _player c /\ _frameIndex c' = _frameIndex c /\
  frame_tape w' = frame_tape w /\ time_tape w' = time_tape w /\
  metadata_tape w' = metadata_tape w.
Proof.
  intros H. destruct c, w. unfold record in H. munfold_in H. cbn in H.
  destruct streamOnly; cbn in H; break_all H; inversion H; subst; cbn;
    repeat split; reflexivity.
Qed.

Lemma frame_times_app pre img ts s rest :
  Forall (fun r : option (Image * Q) * string => fst r = None) pre ->
  frame_times (pre ++ (Some (img, ts), s) :: rest) = ts :: frame_times rest.
Proof.
  intros Hpre. induction Hpre as [|[f s0] pre Hf _ IH]; [reflexivity|].
  cbn in Hf. subst f. exact IH.
Qed.

Lemma frame_times_suffix pre r rest :
  StronglySorted Qle (frame_times (pre ++ r :: rest)) ->
  StronglySorted Qle (frame_times rest).
Proof.
  unfold frame_times. rewrite flat_map_app. cbn [flat_map].
  generalize (flat_map
    (fun r0 : option (Image * Q) * string =>
       match fst r0 with Some (_, ts) => [ts] | None => [] end) rest).
  intros l H.
  induction (flat_map
    (fun r0 : option (Image * Q) * string =>
       match fst r0 with Some (_, ts) => [ts] | None => [] end) pre)
    as [|x xs IH]; cbn in H.
  - destruct (fst r) as [[_ ts]|]; cbn in H; [now inversion H | exact H].
  - inversion H; auto.
Qed.

Lemma readings_shift t0 (log : list Reading) :
  Forall (fun r => rd_rec r = rd_abs r - t0) log ->
  StronglySorted Qle (map rd_abs log) ->
  StronglySorted Qle (map rd_rec log).
Proof.
  induction log as [|r log IH]; intros Hall Hs; cbn; [constructor|].
  inversion Hall as [|? ? Hr Hall']; subst.
  cbn in Hs. inversion Hs as [|? ? Hs' Hle]; subst.
  constructor; [auto|].
  rewrite Forall_forall in *. intros x Hx.
  apply in_map_iff in Hx. destruct Hx as (r' & <- & Hin).
  rewrite Hr, (Hall' r' Hin).
  assert (rd_abs r <= rd_abs r') by (apply Hle, in_map; exact Hin).
  lra.
Qed.

Lemma pull_while_recording_readings timeouts :
  forall c w log st',
  StronglySorted Qle (frame_times (frame_tape w)) ->
  pull_while_recording timeouts (c, w) = Ok log st' ->
  StronglySorted Qle (map rd_abs log) /\
  Forall (fun r => In (rd_abs r) (frame_times (frame_tape w))) log /\
  Forall (fun r => rd_start r = latched c log /\
                   rd_rec r = rd_abs r - latched c log) log.
Proof.
  induction timeouts as [|timeout timeouts IH]; intros c w log st' Hs H.
  - inversion H; subst. repeat split; constructor.
  - cbn [pull_while_recording] in H. unfold bind at 1, get_self in H.
    cbn in H. unfold status in H.
    destruct (Status_eqb (_status c) RECORDING) eqn:Est; cbn in H;
      [|inversion H; subst; repeat split; constructor].
    unfold bind at 1 in H.
    destruct (_enqueueFrame timeout (c, w)) as [got [c1 w1]| |] eqn:Eq;
      [|discriminate|discriminate].
    unfold bind at 1, get_self in H. cbn in H. unfold bind at 1 in H.
    destruct (pull_while_recording timeouts (c1, w1)) as [rest st1| |] eqn:Er;
      [|discriminate|discriminate].
    unfold ret in H. inversion H; subst; clear H.
    apply enqueueFrame_inv in Eq.
    destruct Eq as (md & mds & fr & s & _ & _ & _ & _ & _ & _ & _ &
                    (pre & Hpre & Hnone) & _ & _ & _ & _ & _ & Hcase).
    rewrite Hpre in Hs.
    pose proof (frame_times_suffix _ _ _ Hs) as Hs1.
    destruct (IH _ _ _ _ Hs1 Er) as (Hsorted & Hin & Hlatch).
    destruct Hcase as [[-> ->] | (-> & img & ts & plane & -> & Habs & Hstart & Hpts & Hlast & _)].
    + (* no frame: nothing but the metadata has moved *)
      repeat split; auto.
      rewrite Forall_forall in *. intros r Hr. specialize (Hin r Hr).
      rewrite Hpre. unfold frame_times in *. rewrite flat_map_app.
      apply in_or_app. right. cbn [flat_map]. apply in_or_app. now right.
    + (* a frame with timestamp [ts] *)
      rewrite Est in Hstart, Hpts. rewrite Hstart in Hpts.
      rewrite frame_times_app in Hs by exact Hnone.
      inversion Hs as [|? ? _ Hle]; subst.
      unfold latched in Hlatch. rewrite Hlast in Hlatch. cbn in Hlatch.
      rewrite Hstart in Hlatch.
      assert (Hl : latched c
                (mkReading (streamTime c1) (_startPts c1) (recordingTime c1) :: rest)
              = (if is_NULL_MOVIE_FRAME_INFO (_lastFrame c) then _absPts c1
                 else _startPts c)).
      { unfold latched. cbn. reflexivity. }
      rewrite Hl. unfold streamTime, recordingTime.
      rewrite Hstart, Hpts.
      repeat split.
      * cbn. constructor; [exact Hsorted|].
        rewrite Forall_forall in *. intros x Hx.
        apply in_map_iff in Hx. destruct Hx as (r & <- & Hr).
        apply Hle, Hin, Hr.
      * constructor.
        -- cbn. rewrite Hpre, frame_times_app by exact Hnone. now left.
        -- rewrite Hpre, frame_times_app by exact Hnone.
           rewrite Forall_forall in Hin |- *. intros r Hr. right. now apply Hin.
      * constructor; [split; reflexivity | exact Hlatch].
Qed.

(** C5.  In a session started by [record], the first frame pulled latches
    the recording start to its own absolute timestamp, so that
    [recordingTime] is zero; for every frame of the session the recording
    start is still that timestamp and [recordingTime] is the frame's
    absolute timestamp minus it; and, the source's timestamps being
    non-decreasing, [recordingTime] is non-decreasing over the session. *)
Theorem recordingTime_session streamOnly timeouts st0 st1 log st2 :
  record streamOnly st0 = Ok tt st1 ->
  StronglySorted Qle (frame_times (frame_tape (snd st0))) ->
  pull_while_recording timeouts st1 = Ok log st2 ->
  StronglySorted Qle (map rd_rec log) /\
  forall first rest, log = first :: rest ->
    rd_start first = rd_abs first /\
    rd_rec first == 0 /\
    Forall (fun r => rd_start r = rd_abs first /\
                     rd_rec r = rd_abs r - rd_abs first) log.
Proof.
  destruct st0 as [c0 w0], st1 as [c1 w1]. cbn [snd].
  intros Hrec Hs Hpull.
  apply record_inv in Hrec.
  destruct Hrec as (_ & Hlast & _ & _ & Hft & _ & _).
  rewrite <- Hft in Hs.
  destruct (pull_while_recording_readings _ _ _ Hs Hpull)
    as (Hsorted & _ & Hlatch).
  split.
  - apply readings_shift with (t0 := latched c1 log); [|exact Hsorted].
    eapply Forall_impl; [|exact Hlatch]. cbn. intros r [_ Hr]. exact Hr.
  - intros first rest ->.
    unfold latched in Hlatch. rewrite Hlast in Hlatch. cbn in Hlatch.
    inversion Hlatch as [|? ? [Hst Hr] _]; subst.
    repeat split; [exact Hst | rewrite Hr; lra | exact Hlatch].
Qed.

Lemma recordingTime_session_witness :
  StronglySorted Qle (map rd_rec (fst session_result)) /\
  forall first rest, fst session_result = first :: rest ->
    rd_start first = rd_abs first /\
    rd_rec first == 0 /\
    Forall (fun r => rd_start r = rd_abs first /\
                     rd_rec r = rd_abs r - rd_abs first) (fst session_result).
Proof.
  apply (@recordingTime_session true [0; 0; 0]
           (opened_camera None, world_three_frames) recording_state
           (fst session_result) (snd session_result)).
  - reflexivity.
  - cbn. repeat constructor; unfold Qle; cbn; lia.
  - vm_compute. reflexivity.
Defined.

Example session_result_readings :
  map rd_abs (fst session_result) = [2.5; 2.53; 2.56] /\
  map rd_start (fst session_result) = [2.5; 2.5; 2.5] /\
  Forall2 Qeq (map rd_rec (fst session_result)) [0; 0.03; 0.06].
Proof. repeat split; repeat constructor. Qed.

(** The sample controllers are what the constructor and [open] build. *)
Example new_camera_built mic :
  Camera__init__ (DevStr "/dev/video0") mic "video" "ffpyplayer" None None
                 (quiet_world linux_host)
  = Ok (new_camera mic) (quiet_world linux_host).
Proof. reflexivity. Qed.

Example camera_by_index :
  Camera__init__ (DevInt 1) None "video" "ffpyplayer" None None
                 (quiet_world linux_host)
  = Ok (mkCamera "video1" None None "video" "ffpyplayer" [] [] None EmptyString EmptyString "."
                 None NOT_STARTED (-1) false (-1.0) (-1.0) (-1.0) MetaNone
                 NULL_MOVIE_FRAME_INFO)
       (quiet_world linux_host).
Proof. reflexivity. Qed.

Example camera_index_out_of_range :
  Camera__init__ (DevInt 3) None "video" "ffpyplayer" None None
                 (quiet_world linux_host)
  = Raise (CameraNotFoundError "Could not enumerate camera with index `3`.")
          (quiet_world linux_host).
Proof. reflexivity. Qed.

Example opened_camera_built mic :
  open (new_camera mic, world_no_frame)
  = Ok tt (opened_camera mic, quiet_world linux_host).
Proof. reflexivity. Qed.

(** *** stop *)

(** [stop] without a writer: the early return of [_closeWriter] leaves the
    three timestamps alone. *)
Lemma stop_without_writer c w p :
  _player c = Some p -> _writer c = None ->
  stop (c, w) = Ok tt (set_player (Some (close_once p)) (set_status STOPPED c), w).
Proof.
  intros Hp Hw. destruct c. cbn in *. subst.
  unfold stop. munfold. cbn. reflexivity.
Qed.

(** [stop] with a writer: the writer is closed and dropped, and the three
    timestamps go back to -1. *)
Lemma stop_with_writer c w p wr :
  _player c = Some p -> _writer c = Some wr ->
  stop (c, w)
  = Ok tt (set_absPts (-1.0) (set_pts (-1.0) (set_startPts (-1.0)
             (set_writer None
                (set_player (Some (close_once p)) (set_status STOPPED c))))),
           set_finalized (wr :: finalized w) w).
Proof.
  intros Hp Hw. destruct c. cbn in *. subst.
  unfold stop. munfold. cbn. reflexivity.
Qed.

Lemma stop_no_player c w :
  _player c = None ->
  stop (c, w)
  = Raise (PlayerNotAvailableError "Media player not initialized.") (c, w).
Proof. intros Hp. unfold stop. munfold. cbn. now rewrite Hp. Qed.

(** C6, as the code runs.  [record(streamOnly=True)], one frame, [stop()]:
    the controller is [STOPPED] and [recordingTime] is still the 0 of the
    frame, not the negative sentinel --- [_closeWriter] returns before its
    reset when there is no writer.  A [getVideoFrame] that then finds no
    frame leaves it so.  And a frame flagged end-of-stream moves the status
    to [STOPPING] with [recordingTime] at 0. *)
Theorem stop_keeps_recordingTime_without_writer :
  (exists c' w',
     (record true ;; getVideoFrame 0 ;; stop) (idle_camera, world_ready)
       = Ok tt (c', w') /\
     status c' = STOPPED /\ recordingTime c' == 0 /\ ~ recordingTime c' < 0) /\
  (exists f c' w',
     (record true ;; getVideoFrame 0 ;; stop ;; getVideoFrame 1)
       (idle_camera, world_frame_then_nothing) = Ok f (c', w') /\
     status c' = STOPPED /\ recordingTime c' == 0) /\
  (exists f c' w',
     (record true ;; getVideoFrame 0) (idle_camera, world_eof) = Ok f (c', w') /\
     status c' = STOPPING /\ recordingTime c' == 0).
Proof.
  split; [|split].
  - eexists _, _. split; [vm_compute; reflexivity|].
    cbn. repeat split; try reflexivity. intros H. discriminate H.
  - eexists _, _, _. split; [vm_compute; reflexivity|].
    cbn. repeat split; reflexivity.
  - eexists _, _, _. split; [vm_compute; reflexivity|].
    cbn. repeat split; reflexivity.
Qed.

(** *** The frame index *)

(** No pull changes [_frameIndex], and a delivered frame carries it. *)
Lemma enqueueFrame_frameIndex timeout c w c' w' :
  _enqueueFrame timeout (c, w) = Ok true (c', w') ->
  _frameIndex c' = _frameIndex c /\
  exists f, _lastFrame c' = FrameOf f /\ frameIndex f = _frameIndex c.
Proof.
  intros H. apply enqueueFrame_inv in H.
  destruct H as (md & mds & fr & s & _ & _ & _ & _ & _ & _ & _ & _ & _ & Hi &
                 _ & _ & _ & [[Hgot _] | (_ & img & ts & plane & _ & _ & _ & _ & Hl & _)]);
    [discriminate|].
  split; [exact Hi|]. eexists. split; [exact Hl | reflexivity].
Qed.

(** Two frames pulled one after the other carry the same index. *)
Lemma successive_frames_share_index t1 t2 c w c1 w1 c2 w2 :
  _enqueueFrame t1 (c, w) = Ok true (c1, w1) ->
  _enqueueFrame t2 (c1, w1) = Ok true (c2, w2) ->
  exists f1 f2, _lastFrame c1 = FrameOf f1 /\ _lastFrame c2 = FrameOf f2 /\
                frameIndex f1 = frameIndex f2.
Proof.
  intros H1 H2.
  apply enqueueFrame_frameIndex in H1, H2.
  destruct H1 as (Hi1 & f1 & Hl1 & Hf1), H2 as (_ & f2 & Hl2 & Hf2).
  exists f1, f2. repeat split; auto. congruence.
Qed.

(** C9, as the code runs.  [_frameIndex] is set to -1 by the constructor
    and never written again: two distinct frames pulled one after the other
    in a recording both carry index -1. *)
Theorem frameIndex_never_advances :
  exists f1 f2 st',
    (record true ;; a <- getVideoFrame 0 ;; b <- getVideoFrame 0 ;; ret (a, b))
      (idle_camera, world_three_frames) = Ok (FrameOf f1, FrameOf f2) st' /\
    absTime f1 = 2.5 /\ absTime f2 = 2.53 /\
    frameIndex f1 = (-1)%Z /\ frameIndex f2 = (-1)%Z.
Proof.
  eexists _, _, _. split; [vm_compute; reflexivity|].
  cbn. repeat split; reflexivity.
Qed.

(** *** save *)

(** [save] refuses to run unless the status is [STOPPED]. *)
Lemma save_not_stopped filename c w :
  _status c <> STOPPED ->
  save filename (c, w)
  = Raise (RuntimeError
      "Attempted to call `save()` a file before calling `stop()`.") (c, w).
Proof.
  intros Hs. destruct c. cbn in Hs. unfold save. munfold. cbn.
  destruct _status0; cbn; try reflexivity. congruence.
Qed.

(** In the [STOPPED] state, with an output path [out] configured, the muxed
    file goes to [out]; the size then reported is that of whatever file is
    at [filename]. *)
Lemma save_stopped filename out sz c w :
  _status c = STOPPED -> _outFile c = Some out ->
  mux (host w) (_tempVideoFileName c) (_tempAudioFileName c) out = Some sz ->
  save filename (c, w)
  = match dict_get (dict_set (files w) out sz) filename with
    | Some n => Ok n (set_outFile (Some filename) c,
                      set_files (dict_set (files w) out sz) w)
    | None => Raise (FileNotFoundError filename)
                    (set_outFile (Some filename) c,
                     set_files (dict_set (files w) out sz) w)
    end.
Proof.
  intros Hs Ho Hm. destruct c, w. cbn in Hs, Ho, Hm. subst.
  unfold save. munfold. cbn -[dict_get dict_set]. rewrite Hm.
  cbn -[dict_get dict_set].
  destruct (dict_get _ filename); reflexivity.
Qed.

Lemma save_without_outFile filename c w :
  _status c = STOPPED -> _outFile c = None ->
  save filename (c, w)
  = Raise (RuntimeError
      "Failed to write file `filename`, check if the output path is writeable.")
      (c, w).
Proof.
  intros Hs Ho. destruct c. cbn in Hs, Ho. subst.
  unfold save. munfold. cbn. reflexivity.
Qed.

(** C2, as the code runs.  With [outFile] set to [a.mp4], a recording made
    and stopped, [save('b.mp4')] has MoviePy write the merged file to
    [a.mp4] and then asks for the size of [b.mp4]: nothing is produced at
    [b.mp4], the call ends in the file-not-found error of [getsize], or
    reports the 7 bytes of a file that was already there.  With no
    [outFile] set, [save('out.mp4')] raises although the path is fine. *)
Theorem save_writes_outFile_not_filename :
  (exists c' w',
     (outFile_setter (Some "a.mp4") ;; record false ;; getVideoFrame 0 ;;
      stop ;; save "b.mp4") (idle_camera, world_recording)
       = Raise (FileNotFoundError "b.mp4") (c', w') /\
     status c' = STOPPED /\ files w' = [("a.mp4", 4096%Z)]) /\
  (exists c' w',
     (outFile_setter (Some "a.mp4") ;; record false ;; getVideoFrame 0 ;;
      stop ;; save "b.mp4") (idle_camera, world_recording_stale)
       = Ok 7%Z (c', w') /\
     files w' = [("a.mp4", 4096%Z); ("b.mp4", 7%Z)]) /\
  (exists c' w',
     (record false ;; getVideoFrame 0 ;; stop ;; save "out.mp4")
       (idle_camera, world_recording)
       = Raise (RuntimeError
           "Failed to write file `filename`, check if the output path is writeable.")
           (c', w') /\
     status c' = STOPPED /\ files w' = []).
Proof.
  split; [|split]; eexists _, _; (split; [vm_compute; reflexivity|]);
    cbn; repeat split; reflexivity.
Qed.

(** *** record *)

(** C3, counterexample.  The controller is opened and [record(False)] is
    called: no writer handle is acquired, because no output path is set,
    and the status is [RECORDING] all the same.  With an output path set
    before [open()], which then opens the writer itself, [record(False)]
    raises instead of recording. *)
Lemma record_without_writer_counterexample :
  _hasPlayer (opened_camera None) = true /\
  record false (opened_camera None, world_names)
    = Ok tt (set_status RECORDING (opened_camera None), world_names) /\
  _writer (set_status RECORDING (opened_camera None)) = None /\
  (exists c' w',
     (outFile_setter (Some "a.mp4") ;; open ;; record false)
       (new_camera None,
        mkWorld linux_host [0; 0.01] [(None, EmptyString)] [vga] ["1f0e"; "k3x9"] [] [])
     = Raise (RuntimeError "Stream writer instance has already been created.")
             (c', w') /\
     status c' = NOT_STARTED).
Proof.
  repeat split. eexists _, _. split; [vm_compute; reflexivity | reflexivity].
Qed.

(** C3, amended.  [record] raises the player-not-available error when no
    player was opened.  On an opened controller holding no writer,
    [record(False)] with an output path configured opens a writer on a
    temporary file whose name embeds the identifier drawn for this call,
    with the width, height and frame rate of the most recent metadata, and
    sets the status to [RECORDING]; with no output path configured it opens
    no writer and sets the status to [RECORDING]. *)
Theorem record_opens_writer :
  (forall streamOnly c w,
     _player c = None ->
     record streamOnly (c, w)
     = Raise (PlayerNotAvailableError "Media player not initialized.") (c, w)) /\
  (forall c w p out md ident rnd names,
     _player c = Some p -> _writer c = None -> _outFile c = Some out ->
     _recentMetadata c = MetaOf md ->
     entropy_tape w = ident :: rnd :: names ->
     exists c',
       record false (c, w) = Ok tt (c', set_entropy_tape names w) /\
       _writer c' =
         Some (mkWriter (temp_video_path (host w) rnd ident)
                 [mkWriterOptions "yuv420p" (fst (size md)) (snd (size md))
                                  (frameRate md)] []) /\
       _tempVideoFileName c' = temp_video_path (host w) rnd ident /\
       _status c' = RECORDING) /\
  (forall c w p,
     _player c = Some p -> _writer c = None -> _outFile c = None ->
     exists c',
       record false (c, w) = Ok tt (c', w) /\
       _writer c' = None /\ _status c' = RECORDING).
Proof.
  split; [|split].
  - intros streamOnly c w Hp. unfold record. munfold. cbn. now rewrite Hp.
  - intros c w p out md ident rnd names Hp Hw Ho Hm He.
    destruct c, w. cbn in *. subst.
    unfold record. munfold. cbn. destruct md as [[fw fh] fr pf sv]. cbn.
    destruct _mic0; cbn; eexists; repeat split; reflexivity.
  - intros c w p Hp Hw Ho. destruct c, w. cbn in *. subst.
    unfold record. munfold. cbn.
    destruct _mic0; cbn; eexists; repeat split; reflexivity.
Qed.

Lemma record_opens_writer_witness :
  exists c',
    record false (set_outFile (Some "a.mp4") (opened_camera None), world_names)
      = Ok tt (c', set_entropy_tape [] world_names) /\
    _writer c' =
      Some (mkWriter "/tmp/psychopy-k3x91f0e/video-1f0e.mp4"
              [mkWriterOptions "yuv420p" 640 480 30] []) /\
    _tempVideoFileName c' = "/tmp/psychopy-k3x91f0e/video-1f0e.mp4" /\
    _status c' = RECORDING.
Proof.
  exact (proj1 (proj2 record_opens_writer)
           (set_outFile (Some "a.mp4") (opened_camera None)) world_names
           (mkPlayer "/dev/video0" [] [] 0) "a.mp4" vga "1f0e" "k3x9" []
           eq_refl eq_refl eq_refl eq_refl eq_refl).
Defined.

(** *** open *)

(** C4, counterexample.  The source has no frame at the poll of the first
    pull; [open()] returns normally all the same, and the controller then
    counts as ready. *)
Lemma open_without_frame_counterexample :
  open (new_camera None, world_never_ready)
    = Ok tt (opened_camera None, quiet_world linux_host) /\
  isReady (opened_camera None) = true /\
  lastFrame (opened_camera None) = NULL_MOVIE_FRAME_INFO.
Proof. repeat split. Qed.

Lemma openWriter_inv c w c' w' :
  _openWriter (c, w) = Ok tt (c', w') ->
  _player c' = _player c /\ _recentMetadata c' = _recentMetadata c /\
  _lastFrame c' = _lastFrame c /\ metadata_tape w' = metadata_tape w.
Proof.
  intros H. destruct c, w. munfold_in H. cbn in H.
  break_all H; inversion H; subst; cbn; repeat split; reflexivity.
Qed.

(** C4, amended.  [open] raises the misuse error on a controller that has a
    player already.  Whenever it succeeds, [isReady] is true and [metadata]
    is what the source reported at the start of the first pull.  And it
    succeeds without a frame: on a fresh controller, the clock having
    advanced by less than the one-second timeout at the first poll, it polls
    the source once and returns normally whatever that poll gave, with no
    frame stored. *)
Theorem open_ready_without_frame :
  (forall c w p,
     _player c = Some p ->
     open (c, w)
     = Raise (RuntimeError "Cannot open `MediaPlayer`, already opened.") (c, w)) /\
  (forall c w c' w',
     open (c, w) = Ok tt (c', w') ->
     isReady c' = true /\
     exists md, hd_error (metadata_tape w) = Some md /\ metadata c' = MetaOf md) /\
  (forall c h t0 t1 clk r ft md mt et fl fz,
     _player c = None -> _writer c = None -> _outFile c = None ->
     t1 - t0 < 1 ->
     exists c',
       open (c, mkWorld h (t0 :: t1 :: clk) (r :: ft) (md :: mt) et fl fz)
         = Ok tt (c', mkWorld h clk ft mt et fl fz) /\
       isReady c' = true /\ metadata c' = MetaOf md /\
       lastFrame c' = lastFrame c).
Proof.
  split; [|split].
  - intros c w p Hp. unfold open. munfold. cbn. unfold _hasPlayer.
    now rewrite Hp.
  - intros c w c' w' H. unfold open in H.
    unfold bind at 1, get_self in H. cbn in H. unfold _hasPlayer in H.
    destruct (_player c) eqn:Ep; [discriminate|].
    unfold bind at 1, get_world in H. cbn in H.
    match type of H with
    | (let '(_, _) := ?x in _) _ = _ => destruct x as [[ff lo] cam]
    end.
    unfold bind at 1, modify_self in H. cbn in H. unfold bind at 1 in H.
    match type of H with
    | context [_enqueueFrame ?t ?s] =>
        destruct (_enqueueFrame t s) as [got [c1 w1]| |] eqn:Eq
    end; [|discriminate|discriminate].
    apply enqueueFrame_inv in Eq. cbn in Eq.
    destruct Eq as (md & mds & fr & s & _ & Hm & Hm1 & _ & _ & _ & _ & _ &
                    Hmeta & _ & Hpl & _).
    apply openWriter_inv in H. destruct H as (Hp' & Hr' & _ & _).
    split.
    + unfold isReady. rewrite Hp', Hpl, Hr', Hmeta. reflexivity.
    + exists md. rewrite Hm. split; [reflexivity|].
      unfold metadata. now rewrite Hr', Hmeta.
  - intros c h t0 t1 clk r ft md mt et fl fz Hp Hw Ho Hlt.
    assert (Hlt' : t1 - t0 < 1.0)
      by (apply Qlt_le_trans with 1; [exact Hlt | unfold Qle; cbn; lia]).
    destruct c. cbn in Hp, Hw, Ho. subst.
    unfold open, _enqueueFrame. munfold. cbn.
    match goal with
    | |- context [if ?b then _ else _] => destruct b
    end; cbn; unfold set_time_tape, set_metadata_tape; cbn;
      rewrite poll_loop_positive_timeout by exact Hlt'; cbn;
      eexists; repeat split; reflexivity.
Qed.

Lemma open_ready_without_frame_witness :
  exists c',
    open (new_camera None, world_never_ready)
      = Ok tt (c', quiet_world linux_host) /\
    isReady c' = true /\ metadata c' = MetaOf vga /\
    lastFrame c' = lastFrame (new_camera None).
Proof.
  apply (proj2 (proj2 open_ready_without_frame) (new_camera None) linux_host
           0 0.5 [] (None, EmptyString) [] vga [] [] [] []); try reflexivity.
Defined.

(** *** getCameras *)

(** C7, counterexample.  On macOS the function has an empty branch: no
    device is looked for, and the empty list is returned without an error. *)
Lemma getCameras_darwin_counterexample :
  has_enumeration_strategy "Darwin" = false /\
  getCameras (quiet_world darwin_host) = Ok [] (quiet_world darwin_host).
Proof. split; reflexivity. Qed.

Lemma getCameras_windows_fold names devs acc :
  fold_left
    (fun (foundCameras : list string) devKey =>
       foundCameras ++
       [match dict_get names devKey with None => devKey | Some n => n end])
    devs acc
  = acc ++ map (fun devKey =>
                  match dict_get names devKey with
                  | None => devKey
                  | Some n => n
                  end) devs.
Proof.
  revert acc. induction devs as [|d devs IH]; intros acc; cbn.
  - now rewrite app_nil_r.
  - rewrite IH, <- app_assoc. reflexivity.
Qed.

(** C7, amended.  [getCameras] raises [OSError] naming the platform on
    every platform other than "Darwin", "Linux" and "Windows".  On "Darwin"
    it returns the empty list.  On "Linux" it returns the entries of
    [/dev/video*] in sorted order.  On "Windows" it returns, in the order of
    the DirectShow device table, the readable name of each device, or its
    key when it has no name. *)
Theorem getCameras_by_platform :
  (forall w,
     String.eqb (platform_system (host w)) "Darwin" = false ->
     has_enumeration_strategy (platform_system (host w)) = false ->
     getCameras w
     = Raise (OSError ("Cannot get cameras, unsupported platform '"
                         ++ platform_system (host w) ++ "'.")%string) w) /\
  (forall w,
     platform_system (host w) = "Darwin" -> getCameras w = Ok [] w) /\
  (forall w,
     platform_system (host w) = "Linux" ->
     exists cams,
       getCameras w = Ok cams w /\
       Permutation (glob_video (host w)) cams /\
       LocallySorted (fun a b => String.leb a b = true) cams) /\
  (forall w,
     platform_system (host w) = "Windows" ->
     getCameras w
     = Ok (map (fun devKey =>
                  match dict_get (dshow_names (host w)) devKey with
                  | None => devKey
                  | Some n => n
                  end) (dshow_videoDevs (host w))) w).
Proof.
  repeat split.
  - intros w Hd Hs. unfold has_enumeration_strategy in Hs.
    apply orb_false_iff in Hs. destruct Hs as [Hl Hw].
    unfold getCameras, bind, get, ret, raise. cbn.
    now rewrite Hd, Hl, Hw.
  - intros w Hd. unfold getCameras, bind, get, ret, raise. cbn.
    now rewrite Hd.
  - intros w Hl. exists (StringSort.sort (glob_video (host w))).
    unfold getCameras, bind, get, ret, raise. cbn. rewrite Hl. cbn.
    repeat split.
    + apply StringSort.Permuted_sort.
    + apply StringSort.LocallySorted_sort.
  - intros w Hw. unfold getCameras, bind, get, ret, raise. cbn. rewrite Hw.
    cbn. now rewrite getCameras_windows_fold.
Qed.

Lemma getCameras_by_platform_witness :
  (exists cams,
     getCameras (quiet_world linux_host) = Ok cams (quiet_world linux_host) /\
     Permutation ["video1"; "video0"; "video10"] cams /\
     LocallySorted (fun a b => String.leb a b = true) cams) /\
  getCameras (quiet_world windows_host)
    = Ok ["@device_pnp_1"; "USB Camera"] (quiet_world windows_host) /\
  getCameras (quiet_world (mkHost "FreeBSD" [] [] [] "/tmp" (fun _ _ _ => None)))
    = Raise (OSError "Cannot get cameras, unsupported platform 'FreeBSD'.")
            (quiet_world (mkHost "FreeBSD" [] [] [] "/tmp" (fun _ _ _ => None))).
Proof.
  split; [|split].
  - exact (proj1 (proj2 (proj2 getCameras_by_platform))
             (quiet_world linux_host) eq_refl).
  - exact (proj2 (proj2 (proj2 getCameras_by_platform))
             (quiet_world windows_host) eq_refl).
  - exact (proj1 getCameras_by_platform
             (quiet_world (mkHost "FreeBSD" [] [] [] "/tmp" (fun _ _ _ => None)))
             eq_refl eq_refl).
Defined.

Example getCameras_linux_sorted :
  getCameras (quiet_world linux_host)
  = Ok ["video0"; "video1"; "video10"] (quiet_world linux_host).
Proof. reflexivity. Qed.

(** *** stop and the collaborators *)

(** C8, counterexample.  The microphone was started by [record()]; after
    [stop()] the only call it has received is still that [record()]. *)
Lemma stop_leaves_microphone_counterexample :
  exists c' w',
    stop (recording_camera, quiet_world linux_host) = Ok tt (c', w') /\
    status c' = STOPPED /\
    _mic c' = Some (mkMic [MicRecord]) /\
    ~ In MicStop [MicRecord].
Proof.
  eexists _, _. split; [vm_compute; reflexivity|].
  cbn. repeat split. intros [H|[]]. discriminate H.
Qed.

(** C8, amended.  On an opened controller [stop] sets the status to
    [STOPPED], calls [close_player] on the player while keeping the player
    object, closes the writer if there is one and clears the handle, and
    makes no call on the microphone. *)
Theorem stop_finalizes c w p :
  _player c = Some p ->
  exists c',
    stop (c, w)
      = Ok tt (c', match _writer c with
                   | Some wr => set_finalized (wr :: finalized w) w
                   | None => w
                   end) /\
    status c' = STOPPED /\
    _player c' = Some (close_once p) /\
    _writer c' = None /\
    _mic c' = _mic c.
Proof.
  intros Hp. destruct (_writer c) as [wr|] eqn:Hw.
  - rewrite (stop_with_writer _ w Hp Hw). eexists. repeat split.
  - rewrite (stop_without_writer _ w Hp Hw). eexists. repeat split.
    destruct c; cbn in *. exact Hw.
Qed.

Lemma stop_finalizes_witness :
  exists c',
    stop (recording_camera, quiet_world linux_host)
      = Ok tt (c', set_finalized
                     [mkWriter "/tmp/psychopy-k3x91f0e/video-1f0e.mp4"
                        [mkWriterOptions "yuv420p" 640 480 30] []]
                     (quiet_world linux_host)) /\
    status c' = STOPPED /\
    _player c' = Some (mkPlayer "/dev/video0" [] [] 1) /\
    _writer c' = None /\
    _mic c' = Some (mkMic [MicRecord]).
Proof.
  exact (@stop_finalizes recording_camera (quiet_world linux_host)
           (mkPlayer "/dev/video0" [] [] 0) eq_refl).
Defined.

(** *** Pulls that do bring a frame *)

(** With a timeout that is not positive, a frame that is there at the first
    poll is delivered: the pull returns [True]. *)
Lemma enqueueFrame_nonpositive_delivers
    timeout c p h t0 t1 clk img ts s ft md mt et fl fz plane planes :
  _player c = Some p ->
  timeout <= 0 -> t0 <= t1 ->
  img_planes img = plane :: planes ->
  exists c',
    _enqueueFrame timeout
      (c, mkWorld h (t0 :: t1 :: clk) ((Some (img, ts), s) :: ft) (md :: mt)
                  et fl fz)
    = Ok true (c', mkWorld h clk ft mt et fl fz).
Proof.
  intros Hp Hto Hclk Hpl.
  assert (Hb : Qlt_bool (t1 - t0) timeout = false)
    by (apply Qlt_bool_false_iff; lra).
  destruct c, img. cbn in Hp, Hpl. subst.
  unfold _enqueueFrame. munfold. cbn.
  unfold set_time_tape, set_metadata_tape. cbn.
  rewrite poll_loop_frame_at_once, Hb. cbn.
  destruct _status0, _lastFrame0, _writer0, (String.eqb s "eof"),
    md as [[fw fh] ? ? ?]; cbn; eexists; reflexivity.
Qed.

(** The first frame after [record]: pulled with the default timeout, it
    latches the start to its own timestamp and reads a recording time of
    zero. *)
Lemma first_frame_after_record
    streamOnly st0 timeout c p h t0 t1 clk img ts s ft md mt et fl fz
    plane planes :
  record streamOnly st0
    = Ok tt (c, mkWorld h (t0 :: t1 :: clk) ((Some (img, ts), s) :: ft)
                        (md :: mt) et fl fz) ->
  _player c = Some p ->
  timeout <= 0 -> t0 <= t1 ->
  img_planes img = plane :: planes ->
  exists c',
    _enqueueFrame timeout
      (c, mkWorld h (t0 :: t1 :: clk) ((Some (img, ts), s) :: ft) (md :: mt)
                  et fl fz)
    = Ok true (c', mkWorld h clk ft mt et fl fz) /\
    streamTime c' = ts /\ _startPts c' = ts /\ recordingTime c' == 0.
Proof.
  intros Hrec Hp Hto Hclk Hpl. destruct st0 as [c0 w0].
  apply record_inv in Hrec. destruct Hrec as (Hst & Hlf & _).
  destruct (@enqueueFrame_nonpositive_delivers timeout c p h t0 t1 clk img ts
              s ft md mt et fl fz plane planes Hp Hto Hclk Hpl) as [c' Hc'].
  exists c'. split; [exact Hc'|].
  apply enqueueFrame_inv in Hc'.
  destruct Hc' as (md' & mds & fr & s' & _ & _ & _ & _ & _ & _ & _ &
                   (pre & Hpre & Hnone) & _ & _ & _ & _ & _ &
                   [[Hgot _] | (_ & img' & ts' & plane' & Hfr & Ha & Hs & Hpts & _)]);
    [discriminate|].
  cbn in Hpre. rewrite Hst, Hlf in *. cbn in Hs, Hpts.
  assert (Hts : ts' = ts).
  { destruct pre as [|x pre]; cbn in Hpre.
    - inversion Hpre; subst. congruence.
    - inversion Hpre; subst. inversion Hnone; subst. discriminate. }
  rewrite Hts in Ha, Hs, Hpts. unfold streamTime, recordingTime.
  split; [exact Ha|]. split; [exact Hs|]. rewrite Hpts, Hs. lra.
Qed.

(** With a timeout that is not positive, the pull waits through any number
    of empty polls, however late it gets, and delivers the frame that comes
    then. *)
Lemma getVideoFrame_nonpositive_timeout_waits
    timeout c p k h t0 late clk img ts s ft md mt et fl fz plane planes :
  _player c = Some p ->
  timeout <= 0 ->
  Forall (fun now => t0 <= now) late -> List.length late = S k ->
  img_planes img = plane :: planes ->
  exists f c',
    getVideoFrame timeout
      (c, mkWorld h (t0 :: late ++ clk)
            (repeat (None, EmptyString) k ++ (Some (img, ts), s) :: ft)
            (md :: mt) et fl fz)
    = Ok (FrameOf f) (c', mkWorld h clk ft mt et fl fz) /\
    absTime f = ts.
Proof.
  intros Hp Hto Hlate Hlen Hpl.
  destruct c, img. cbn in Hp, Hpl. subst.
  unfold getVideoFrame, _enqueueFrame. munfold. cbn.
  unfold set_time_tape, set_metadata_tape. cbn.
  rewrite (@poll_loop_nonpositive_timeout k) by
    (auto; rewrite length_app, repeat_length; cbn; lia).
  cbn.
  destruct _status0, _lastFrame0, _writer0, (String.eqb s "eof"),
    md as [[fw fh] ? ? ?]; cbn; eexists _, _; split; reflexivity.
Qed.

(* ------------------------------------------------------------------ *)
(** * Further properties *)

(** *** CameraInfo *)

Lemma num_le_int (a b : Z) : num_le (PyInt a) (PyInt b) = true <-> (a <= b)%Z.
Proof.
  unfold num_le. cbn. rewrite Qle_bool_iff, <- Zle_Qle. reflexivity.
Qed.

(** X1.  The constructor of a descriptor accepts exactly a frame size of two
    integers (of any sign) and a frame-rate range of two integers in order,
    and the descriptor it builds holds the arguments as given. *)
Theorem CameraInfo_init_accepts name fs fr pf cf lib api ci :
  CameraInfo.__init__ name fs fr pf cf lib api = Passed ci <->
  (exists w h, fs = [PyInt w; PyInt h]) /\
  (exists lo hi, fr = [PyInt lo; PyInt hi] /\ (lo <= hi)%Z) /\
  ci = CameraInfo.mk name fs fr pf cf lib api.
Proof.
  unfold CameraInfo.__init__, CameraInfo.and_then, CameraInfo.name_setter,
    CameraInfo.frameSize_setter, CameraInfo.frameRateRange_setter,
    CameraInfo.pixelFormat_setter, CameraInfo.codecFormat_setter.
  cbn. split.
  - intros H.
    destruct fs as [|[w|?] [|[h|?] [|? ?]]]; cbn in H; try discriminate.
    destruct fr as [|[lo|?] [|[hi|?] [|? ?]]]; cbn in H; try discriminate.
    destruct (num_le (PyInt lo) (PyInt hi)) eqn:Hle; cbn in H;
      [|discriminate].
    apply num_le_int in Hle. inversion H; subst.
    repeat split; eauto.
  - intros ((w & h & ->) & (lo & hi & -> & Hle) & ->).
    apply num_le_int in Hle. cbn. rewrite Hle. reflexivity.
Qed.



(** X3.  On a valid descriptor [supportedFrameRate] never fails, and it
    answers [True] exactly for the rates between the two ends of the range,
    ends included, whether the rate is an [int] or a [float]. *)
Theorem supportedFrameRate_iff ci :
  CameraInfo.valid ci ->
  exists lo hi,
    CameraInfo.frameRateRange ci = [PyInt lo; PyInt hi] /\ (lo <= hi)%Z /\
    forall r, exists b,
      CameraInfo.supportedFrameRate ci r = Passed b /\
      (b = true <-> inject_Z lo <= num_value r /\ num_value r <= inject_Z hi).
Proof.
  intros [_ (lo & hi & Hr & Hle)]. exists lo, hi. repeat split; auto.
  intros r. unfold CameraInfo.supportedFrameRate. rewrite Hr.
  eexists. split; [reflexivity|].
  unfold num_le. cbn. rewrite andb_true_iff, !Qle_bool_iff. reflexivity.
Qed.

Lemma supportedFrameRate_iff_witness :
  exists lo hi,
    CameraInfo.frameRateRange
      (CameraInfo.mk "cam" [PyInt 640; PyInt 480] [PyInt 15; PyInt 30]
                     "yuyv422" "Null" "ffpyplayer" "DirectShow")
    = [PyInt lo; PyInt hi] /\ (lo <= hi)%Z /\
    forall r, exists b,
      CameraInfo.supportedFrameRate
        (CameraInfo.mk "cam" [PyInt 640; PyInt 480] [PyInt 15; PyInt 30]
                       "yuyv422" "Null" "ffpyplayer" "DirectShow") r
      = Passed b /\
      (b = true <-> inject_Z lo <= num_value r /\ num_value r <= inject_Z hi).
Proof.
  apply supportedFrameRate_iff.
  split; [exists 640%Z, 480%Z; reflexivity
         | exists 15%Z, 30%Z; split; [reflexivity | lia]].
Defined.

Example supportedFrameRate_samples :
  CameraInfo.supportedFrameRate
    (CameraInfo.mk "cam" [PyInt 640; PyInt 480] [PyInt 15; PyInt 30]
                   "yuyv422" "Null" "ffpyplayer" "DirectShow") (PyFloat 29.97)
  = Passed true /\
  CameraInfo.supportedFrameRate
    (CameraInfo.mk "cam" [PyInt 640; PyInt 480] [PyInt 15; PyInt 30]
                   "yuyv422" "Null" "ffpyplayer" "DirectShow") (PyInt 60)
  = Passed false /\
  (exists ci, CameraInfo.default = Passed ci /\
              CameraInfo.supportedFrameRate ci (PyInt 30) = Passed false).
Proof. repeat split. eexists. split; reflexivity. Qed.

(** *** Camera.__init__ *)

Lemma list_getitem_in_range {A} (l : list A) (i : Z) :
  (- Z.of_nat (List.length l) <= i < Z.of_nat (List.length l))%Z ->
  exists x, list_getitem l i = Some x /\
            nth_error l (Z.to_nat (i mod Z.of_nat (List.length l))) = Some x.
Proof.
  intros Hr. unfold list_getitem.
  assert (Hex : forall k, (k < List.length l)%nat ->
                          exists x, nth_error l k = Some x).
  { intros k Hk. destruct (nth_error l k) eqn:E; [eauto|].
    apply nth_error_None in E. lia. }
  destruct (0 <=? i)%Z eqn:H0.
  - apply Z.leb_le in H0. rewrite Z.mod_small by lia.
    destruct (Hex (Z.to_nat i)) as [x Hx]; [lia|]. eauto.
  - apply Z.leb_gt in H0.
    destruct (- Z.of_nat (List.length l) <=? i)%Z eqn:H1;
      [|apply Z.leb_gt in H1; lia].
    replace (i mod Z.of_nat (List.length l))%Z
      with (Z.of_nat (List.length l) + i)%Z.
    + destruct (Hex (Z.to_nat (Z.of_nat (List.length l) + i))) as [x Hx];
        [lia|]. eauto.
    + apply Z.mod_unique with (q := (-1)%Z); lia.
Qed.

Lemma list_getitem_out_of_range {A} (l : list A) (i : Z) :
  ~ (- Z.of_nat (List.length l) <= i < Z.of_nat (List.length l))%Z ->
  list_getitem l i = None.
Proof.
  intros Hr. unfold list_getitem.
  destruct (0 <=? i)%Z eqn:H0.
  - apply Z.leb_le in H0. apply nth_error_None. lia.
  - apply Z.leb_gt in H0.
    destruct (- Z.of_nat (List.length l) <=? i)%Z eqn:H1; [|reflexivity].
    apply Z.leb_le in H1. lia.
Qed.

(** X4.  A controller built with an integer device takes the camera at that
    position of the enumeration, Python fashion: with [n] cameras the
    indices from [-n] to [n-1] are accepted, the negative ones counting from
    the end, and any other index raises [CameraNotFoundError].  The new
    controller is not started, not ready, and holds no frame. *)
Theorem Camera_init_by_index n mic mode lib co lo w cams :
  getCameras w = Ok cams w ->
  (String.eqb mode "video" || String.eqb mode "cv" || String.eqb mode "photo")
    = true ->
  ((- Z.of_nat (List.length cams) <= n < Z.of_nat (List.length cams))%Z ->
   exists c,
     Camera__init__ (DevInt n) mic mode lib co lo w = Ok c w /\
     nth_error cams (Z.to_nat (n mod Z.of_nat (List.length cams)))
       = Some (_device c) /\
     status c = NOT_STARTED /\ isReady c = false /\
     lastFrame c = NULL_MOVIE_FRAME_INFO) /\
  (~ (- Z.of_nat (List.length cams) <= n < Z.of_nat (List.length cams))%Z ->
   Camera__init__ (DevInt n) mic mode lib co lo w
   = Raise (CameraNotFoundError
              ("Could not enumerate camera with index `" ++ str_of_int n ++ "`."))
           w).
Proof.
  intros Hget Hmode. split; intros Hr.
  - destruct (@list_getitem_in_range _ cams n Hr) as (d & Hd & Hn).
    unfold Camera__init__, bind. rewrite Hget, Hd. unfold ret.
    unfold WEBCAM_MODE_VIDEO, WEBCAM_MODE_CV, WEBCAM_MODE_PHOTO.
    rewrite Hmode. cbn. eexists. split; [reflexivity|]. cbn. auto.
  - apply list_getitem_out_of_range in Hr.
    unfold Camera__init__, bind. rewrite Hget, Hr. reflexivity.
Qed.

Lemma Camera_init_by_index_witness :
  (exists c,
     Camera__init__ (DevInt (-1)) None "video" "ffpyplayer" None None
                    (quiet_world linux_host)
       = Ok c (quiet_world linux_host) /\
     nth_error ["video0"; "video1"; "video10"] 2 = Some (_device c) /\
     status c = NOT_STARTED /\ isReady c = false /\
     lastFrame c = NULL_MOVIE_FRAME_INFO) /\
  Camera__init__ (DevInt (-4)) None "video" "ffpyplayer" None None
                 (quiet_world linux_host)
  = Raise (CameraNotFoundError "Could not enumerate camera with index `-4`.")
          (quiet_world linux_host).
Proof.
  pose proof (@Camera_init_by_index (-1) None "video" "ffpyplayer" None None
                (quiet_world linux_host) ["video0"; "video1"; "video10"]
                eq_refl eq_refl) as H1.
  pose proof (@Camera_init_by_index (-4) None "video" "ffpyplayer" None None
                (quiet_world linux_host) ["video0"; "video1"; "video10"]
                eq_refl eq_refl) as H4.
  split.
  - apply (proj1 H1). cbn. lia.
  - apply (proj2 H4). cbn. lia.
Defined.

(** X5.  A controller built with a device name never enumerates: whatever
    the platform, it is built as soon as the mode is one of the three, with
    the name stored as given, and an unknown mode raises [ValueError].  With
    an integer device an error of the enumeration --- the unsupported
    platform --- comes out of the constructor as it is. *)
Theorem Camera_init_by_name s mic mode lib co lo w :
  ((String.eqb mode "video" || String.eqb mode "cv" || String.eqb mode "photo")
     = true ->
   exists c,
     Camera__init__ (DevStr s) mic mode lib co lo w = Ok c w /\
     _device c = s /\ _mic c = mic /\ _mode c = mode /\
     outFile c = None /\ status c = NOT_STARTED /\ isReady c = false /\
     streamTime c = -1.0 /\ recordingTime c = -1.0) /\
  ((String.eqb mode "video" || String.eqb mode "cv" || String.eqb mode "photo")
     = false ->
   Camera__init__ (DevStr s) mic mode lib co lo w
   = Raise (ValueError
       "Invalid value for parameter `mode`, expected one of `'video'` `'cv'` or `'photo'`.")
       w) /\
  (forall n e,
     getCameras w = Raise e w ->
     Camera__init__ (DevInt n) mic mode lib co lo w = Raise e w).
Proof.
  split; [|split].
  - intros Hmode. unfold Camera__init__, bind, ret.
    unfold WEBCAM_MODE_VIDEO, WEBCAM_MODE_CV, WEBCAM_MODE_PHOTO.
    rewrite Hmode. cbn. eexists. split; [reflexivity|]. cbn.
    repeat split; reflexivity.
  - intros Hmode. unfold Camera__init__, bind, ret.
    unfold WEBCAM_MODE_VIDEO, WEBCAM_MODE_CV, WEBCAM_MODE_PHOTO.
    rewrite Hmode. reflexivity.
  - intros n e Hget. unfold Camera__init__, bind. rewrite Hget. reflexivity.
Qed.

Lemma Camera_init_by_name_witness :
  (exists c,
     Camera__init__ (DevStr "/dev/video0") None "cv" "ffpyplayer" None None
                    (quiet_world (mkHost "FreeBSD" [] [] [] "/tmp"
                                         (fun _ _ _ => None)))
       = Ok c (quiet_world (mkHost "FreeBSD" [] [] [] "/tmp"
                                   (fun _ _ _ => None))) /\
     _device c = "/dev/video0" /\ _mic c = None /\ _mode c = "cv" /\
     outFile c = None /\ status c = NOT_STARTED /\ isReady c = false /\
     streamTime c = -1.0 /\ recordingTime c = -1.0) /\
  Camera__init__ (DevStr "/dev/video0") None "movie" "ffpyplayer" None None
                 (quiet_world linux_host)
  = Raise (ValueError
      "Invalid value for parameter `mode`, expected one of `'video'` `'cv'` or `'photo'`.")
      (quiet_world linux_host) /\
  Camera__init__ (DevInt 0) None "video" "ffpyplayer" None None
                 (quiet_world (mkHost "FreeBSD" [] [] [] "/tmp"
                                      (fun _ _ _ => None)))
  = Raise (OSError "Cannot get cameras, unsupported platform 'FreeBSD'.")
          (quiet_world (mkHost "FreeBSD" [] [] [] "/tmp" (fun _ _ _ => None))).
Proof.
  split; [|split].
  - exact (proj1 (@Camera_init_by_name "/dev/video0" None "cv" "ffpyplayer"
             None None (quiet_world (mkHost "FreeBSD" [] [] [] "/tmp"
                                            (fun _ _ _ => None)))) eq_refl).
  - exact (proj1 (proj2 (@Camera_init_by_name "/dev/video0" None "movie"
             "ffpyplayer" None None (quiet_world linux_host))) eq_refl).
  - exact (proj2 (proj2 (@Camera_init_by_name "x" None "video" "ffpyplayer"
             None None (quiet_world (mkHost "FreeBSD" [] [] [] "/tmp"
                                            (fun _ _ _ => None)))))
             0%Z _ eq_refl).
Defined.

(** *** getCameras on Linux *)

Lemma ascii_compare_refl a : Ascii.compare a a = Eq.
Proof. unfold Ascii.compare. apply N.compare_refl. Qed.

Lemma string_leb_trans a : forall b c,
  String.leb a b = true -> String.leb b c = true -> String.leb a c = true.
Proof.
  unfold String.leb.
  induction a as [|x a IH]; intros [|y b] [|z c]; cbn; try congruence; auto.
  unfold Ascii.compare.
  destruct (N.compare_spec (N_of_ascii x) (N_of_ascii y)) as [Hxy|Hxy|Hxy];
    destruct (N.compare_spec (N_of_ascii y) (N_of_ascii z)) as [Hyz|Hyz|Hyz];
    try congruence; intros H1 H2.
  - rewrite Hxy, Hyz, N.compare_refl. apply (IH b c); assumption.
  - rewrite Hxy. apply N.compare_lt_iff in Hyz. now rewrite Hyz.
  - rewrite <- Hyz. apply N.compare_lt_iff in Hxy. now rewrite Hxy.
  - assert (Hxz : (N_of_ascii x < N_of_ascii z)%N) by lia.
    apply N.compare_lt_iff in Hxz. now rewrite Hxz.
Qed.

(** Two sorted lists of strings with the same entries are the same list. *)
Lemma sorted_strings_unique (l1 : list string) : forall l2,
  StronglySorted (fun a b => String.leb a b = true) l1 ->
  StronglySorted (fun a b => String.leb a b = true) l2 ->
  Permutation l1 l2 -> l1 = l2.
Proof.
  induction l1 as [|a l1 IH]; intros l2 H1 H2 Hp.
  - apply Permutation_nil in Hp. now subst.
  - destruct l2 as [|b l2];
      [apply Permutation_sym, Permutation_nil in Hp; discriminate|].
    inversion H1 as [|? ? H1' Ha]; subst.
    inversion H2 as [|? ? H2' Hb]; subst.
    assert (Hab : a = b).
    { assert (Hin1 : In a (b :: l2))
        by (eapply Permutation_in; [exact Hp | now left]).
      assert (Hin2 : In b (a :: l1))
        by (eapply Permutation_in; [apply Permutation_sym; exact Hp | now left]).
      destruct Hin1 as [->|Hin1]; [reflexivity|].
      destruct Hin2 as [->|Hin2]; [reflexivity|].
      rewrite Forall_forall in Ha, Hb.
      apply String.leb_antisym; [apply Ha, Hin2 | apply Hb, Hin1]. }
    subst b. f_equal. apply IH; auto.
    eapply Permutation_cons_inv; exact Hp.
Qed.

Lemma string_sort_strongly_sorted l :
  StronglySorted (fun a b => String.leb a b = true) (StringSort.sort l).
Proof.
  apply Sorted_StronglySorted.
  - intros a b c. apply string_leb_trans.
  - apply StringSort.Sorted_sort.
Qed.

(** X6.  On Linux the enumeration does not depend on the order in which
    [glob] lists the devices: two listings with the same entries give the
    same list of cameras, so an index names the same device in both. *)
Theorem getCameras_linux_order_independent w1 w2 :
  platform_system (host w1) = "Linux" ->
  platform_system (host w2) = "Linux" ->
  Permutation (glob_video (host w1)) (glob_video (host w2)) ->
  exists cams,
    getCameras w1 = Ok cams w1 /\ getCameras w2 = Ok cams w2 /\
    forall n d, list_getitem cams n = Some d -> In d (glob_video (host w1)).
Proof.
  intros H1 H2 Hp.
  exists (StringSort.sort (glob_video (host w1))).
  unfold getCameras, bind, get, ret. cbn. rewrite H1, H2. cbn.
  repeat split.
  - f_equal. apply sorted_strings_unique;
      try apply string_sort_strongly_sorted.
    eapply Permutation_trans;
      [apply Permutation_sym, StringSort.Permuted_sort|].
    eapply Permutation_trans;
      [apply Permutation_sym; exact Hp | apply StringSort.Permuted_sort].
  - intros n d Hd.
    eapply Permutation_in;
      [apply Permutation_sym, StringSort.Permuted_sort|].
    unfold list_getitem in Hd.
    destruct (0 <=? n)%Z; [eapply nth_error_In; exact Hd|].
    destruct (_ <=? n)%Z; [eapply nth_error_In; exact Hd | discriminate].
Qed.

Lemma getCameras_linux_order_independent_witness :
  exists cams,
    getCameras (quiet_world linux_host) = Ok cams (quiet_world linux_host) /\
    getCameras (quiet_world (mkHost "Linux" ["video10"; "video1"; "video0"]
                                    [] [] "/var/tmp" (fun _ _ _ => None)))
      = Ok cams (quiet_world (mkHost "Linux" ["video10"; "video1"; "video0"]
                                     [] [] "/var/tmp" (fun _ _ _ => None))) /\
    forall n d, list_getitem cams n = Some d ->
                In d ["video1"; "video0"; "video10"].
Proof.
  apply (@getCameras_linux_order_independent (quiet_world linux_host)
           (quiet_world (mkHost "Linux" ["video10"; "video1"; "video0"]
                                [] [] "/var/tmp" (fun _ _ _ => None))));
    try reflexivity.
  cbn. apply perm_trans with ["video1"; "video10"; "video0"].
  - apply perm_skip, perm_swap.
  - apply perm_swap.
Defined.

(** *** Calls on a controller that was never opened *)

(** X7.  On a controller without a player, [record], [stop],
    [getVideoFrame] and [close] all fail --- the first three with the
    player-not-available error, [close] with [RuntimeError] --- and none of
    them changes the controller or touches a collaborator. *)
Theorem calls_without_player_fail_unchanged c w :
  _player c = None ->
  (forall streamOnly,
     record streamOnly (c, w)
     = Raise (PlayerNotAvailableError "Media player not initialized.") (c, w)) /\
  stop (c, w)
  = Raise (PlayerNotAvailableError "Media player not initialized.") (c, w) /\
  (forall timeout,
     getVideoFrame timeout (c, w)
     = Raise (PlayerNotAvailableError "Media player not initialized.") (c, w)) /\
  close (c, w)
  = Raise (RuntimeError "Cannot close stream, not opened yet.") (c, w) /\
  isReady c = false.
Proof.
  intros Hp. repeat split.
  - intros streamOnly. unfold record. munfold. cbn. now rewrite Hp.
  - apply stop_no_player, Hp.
  - intros timeout. unfold getVideoFrame. munfold. cbn. now rewrite Hp.
  - unfold close, _hasPlayer. munfold. cbn. now rewrite Hp.
  - unfold isReady. now rewrite Hp.
Qed.

Lemma calls_without_player_fail_unchanged_witness :
  (forall streamOnly,
     record streamOnly (new_camera None, world_three_frames)
     = Raise (PlayerNotAvailableError "Media player not initialized.")
             (new_camera None, world_three_frames)) /\
  stop (new_camera None, world_three_frames)
  = Raise (PlayerNotAvailableError "Media player not initialized.")
          (new_camera None, world_three_frames) /\
  (forall timeout,
     getVideoFrame timeout (new_camera None, world_three_frames)
     = Raise (PlayerNotAvailableError "Media player not initialized.")
             (new_camera None, world_three_frames)) /\
  close (new_camera None, world_three_frames)
  = Raise (RuntimeError "Cannot close stream, not opened yet.")
          (new_camera None, world_three_frames) /\
  isReady (new_camera None) = false.
Proof.
  exact (@calls_without_player_fail_unchanged (new_camera None)
           world_three_frames eq_refl).
Defined.

(** *** Frames and the writer *)

Lemma enqueueFrame_writer_effect timeout c w got c' w' :
  _enqueueFrame timeout (c, w) = Ok got (c', w') ->
  finalized w' = finalized w /\
  match _writer c with
  | None => _writer c' = None
  | Some wr =>
      if got && Status_eqb (_status c) RECORDING then
        exists img md,
          _recentMetadata c' = MetaOf md /\
          _writer c' =
            Some (mkWriter (mw_filename wr) (mw_streams wr)
                    ((mkScaled (fst (size md)) (snd (size md)) (pixelFormat md)
                               "yuv420p" img, recordingTime c', 0%Z)
                     :: mw_frames wr))
      else _writer c' = Some wr
  end.
Proof.
  intros H. unfold _enqueueFrame in H.
  unfold _assertMediaPlayer, player_get_metadata, getTime, get_world,
    get_self, modify_self, ret, raise, bind at 1 2 3 4 5 6 7 in H.
  cbn in H.
  destruct (_player c) eqn:Ep; [|discriminate]. cbn in H.
  destruct (metadata_tape w) as [|md mds] eqn:Em; [discriminate|]. cbn in H.
  destruct (time_tape w) as [|t ts] eqn:Et; [discriminate|]. cbn in H.
  match type of H with
  | context [poll_loop ?n ?a ?b ?s] =>
      destruct (poll_loop n a b s) as [[[fr s0] to] [c1 w1]| |] eqn:Ep1
  end; [|discriminate|discriminate].
  apply poll_loop_inv in Ep1. cbn in Ep1.
  destruct Ep1 as (-> & Hh & Hm & He & Hf & Hz & Hpre & Hto).
  destruct to.
  - inversion H; subst. cbn. split; [exact Hz|].
    destruct (_writer c); reflexivity.
  - destruct fr as [[img ts0]|]; [|discriminate].
    destruct c. destruct md as [[fw fh] fr pf sv].
    destruct _writer0 as [wr|], _status0; munfold_in H; cbn in *;
      break_all H; inversion H; subst; cbn; (split; [exact Hz|]);
      try reflexivity; eexists _, _; split; reflexivity.
Qed.



Lemma written_pts_push wr img pts stream :
  written_pts (mkWriter (mw_filename wr) (mw_streams wr)
                        ((img, pts, stream) :: mw_frames wr))
  = written_pts wr ++ [pts].
Proof. unfold written_pts. cbn. reflexivity. Qed.

Lemma pull_while_recording_writer timeouts :
  forall c w log c' w' wr,
  _writer c = Some wr ->
  pull_while_recording timeouts (c, w) = Ok log (c', w') ->
  _player c' = _player c /\ finalized w' = finalized w /\
  exists wr',
    _writer c' = Some wr' /\ mw_filename wr' = mw_filename wr /\
    mw_streams wr' = mw_streams wr /\
    written_pts wr' = written_pts wr ++ map rd_rec log.
Proof.
  induction timeouts as [|timeout timeouts IH]; intros c w log c' w' wr Hw H.
  - inversion H; subst. repeat split. exists wr. cbn.
    rewrite app_nil_r. auto.
  - cbn [pull_while_recording] in H. unfold bind at 1, get_self in H.
    cbn in H. unfold status in H.
    destruct (Status_eqb (_status c) RECORDING) eqn:Est; cbn in H.
    2:{ inversion H; subst. repeat split. exists wr. cbn.
        rewrite app_nil_r. auto. }
    unfold bind at 1 in H.
    destruct (_enqueueFrame timeout (c, w)) as [got [c1 w1]| |] eqn:Eq;
      [|discriminate|discriminate].
    unfold bind at 1, get_self in H. cbn in H. unfold bind at 1 in H.
    destruct (pull_while_recording timeouts (c1, w1)) as [rest [c2 w2]| |] eqn:Er;
      [|discriminate|discriminate].
    unfold ret in H. inversion H; subst; clear H.
    pose proof (enqueueFrame_writer_effect _ _ _ Eq) as [Hfin Hwr].
    apply enqueueFrame_inv in Eq.
    destruct Eq as (md & mds & fr & s & _ & _ & _ & _ & _ & _ & _ & _ & _ & _ &
                    Hpl & _).
    rewrite Hw, Est in Hwr.
    destruct got; cbn in Hwr.
    + destruct Hwr as (img & md' & _ & Hwr).
      destruct (IH _ _ _ _ _ _ Hwr Er) as (Hp2 & Hf2 & wr' & Hw' & Hn & Hs & Hpts).
      cbn in Hn, Hs. rewrite written_pts_push, <- app_assoc in Hpts.
      repeat split; try congruence.
      exists wr'. repeat split; auto.
    + destruct (IH _ _ _ _ _ _ Hwr Er) as (Hp2 & Hf2 & wr' & Hw' & Hn & Hs & Hpts).
      repeat split; try congruence.
      exists wr'. repeat split; auto.
Qed.

(** X9.  A recording written to disk.  Whatever frames a session delivers
    while a writer is held, [stop()] afterwards closes a container for the
    same temporary file that holds, after what was there before, one entry
    per delivered frame, in the order of delivery, each stamped with the
    recording time read at that frame; the controller is left [STOPPED]
    with no writer and the recording time back at -1. *)
Theorem session_writes_recording_times timeouts c w p wr log c1 w1 :
  _player c = Some p -> _writer c = Some wr ->
  pull_while_recording timeouts (c, w) = Ok log (c1, w1) ->
  exists wr' c2,
    stop (c1, w1) = Ok tt (c2, set_finalized (wr' :: finalized w1) w1) /\
    finalized w1 = finalized w /\
    mw_filename wr' = mw_filename wr /\
    written_pts wr' = written_pts wr ++ map rd_rec log /\
    _writer c2 = None /\ status c2 = STOPPED /\ recordingTime c2 = -1.0.
Proof.
  intros Hp Hw Hpull.
  destruct (pull_while_recording_writer _ _ _ Hw Hpull)
    as (Hp1 & Hf & wr' & Hw1 & Hn & _ & Hpts).
  rewrite Hp in Hp1.
  exists wr'. eexists. rewrite (stop_with_writer _ w1 Hp1 Hw1).
  repeat split; auto.
Qed.

Lemma session_writes_recording_times_witness :
  exists wr' c2,
    stop (snd writing_session)
      = Ok tt (c2, set_finalized (wr' :: finalized (snd (snd writing_session)))
                                 (snd (snd writing_session))) /\
    finalized (snd (snd writing_session)) = finalized world_three_frames /\
    mw_filename wr' = "/tmp/psychopy-k3x91f0e/video-1f0e.mp4" /\
    written_pts wr' = [] ++ map rd_rec (fst writing_session) /\
    _writer c2 = None /\ status c2 = STOPPED /\ recordingTime c2 = -1.0.
Proof.
  apply (@session_writes_recording_times [0; 0; 0] writing_camera
           world_three_frames (mkPlayer "/dev/video0" [] [] 0)
           (mkWriter "/tmp/psychopy-k3x91f0e/video-1f0e.mp4"
                     [mkWriterOptions "yuv420p" 640 480 30] [])
           (fst writing_session) (fst (snd writing_session))
           (snd (snd writing_session))); reflexivity.
Defined.

Example writing_session_readings :
  Forall2 Qeq (map rd_rec (fst writing_session)) [0; 0.03; 0.06].
Proof. repeat constructor. Qed.
